(** * kutil: notification adaptor and create-or-patch helper for Endpoints

    A shallow embedding of [admission/api/handler.go] and
    [core/v1/endpoints.go].  Go pointers are locations in an explicit
    heap, client calls thread the state of the remote API server and are
    recorded in a call log, and a nil dereference is the outcome
    [Panics]. *)

From Stdlib Require Import Strings.String Strings.Byte.
From Stdlib Require Import List Bool Arith ZArith Lia.
From stdpp Require Import base list.
Import ListNotations.
Local Open Scope string_scope.
Local Open Scope list_scope.

(** ** Go's [error] values, as far as the helpers look at them *)

Module metav1.

(** The reasons a [Status] answer of the API server can carry. *)
Inductive StatusReason :=
| StatusReasonUnknown
| StatusReasonNotFound
| StatusReasonAlreadyExists
| StatusReasonConflict
| StatusReasonInvalid
| StatusReasonServerTimeout.

Record TypeMeta := { Kind : string; APIVersion : string }.

(** The identity part of an object.  [Labels] stands for the remaining
    caller-supplied metadata, [ResourceVersion] for what the server
    stamps. *)
Record ObjectMeta := {
  Name : string;
  Namespace : string;
  ResourceVersion : string;
  Labels : list (string * string)
}.

End metav1.

(** A Go [error] that is not nil: an API status error, or any other. *)
Inductive error :=
| StatusError (reason : metav1.StatusReason) (message : string)
| PlainError (message : string).

(** A value of interface type [error]; [None] is nil. *)
Definition err := option error.

Module kerr.

Definition ReasonForError (e : err) : metav1.StatusReason :=
  match e with
  | Some (StatusError reason _) => reason
  | _ => metav1.StatusReasonUnknown
  end.

Definition IsNotFound (e : err) : bool :=
  match ReasonForError e with
  | metav1.StatusReasonNotFound => true
  | _ => false
  end.

End kerr.

(** ** admission/api/handler.go *)

Module api.
Section Handler.

(** The dynamic values behind [interface{}] and the state the caller's
    closures can read and write. *)
Variables (Value St : Type).

(** An [interface{}]; [None] is nil. *)
Definition iface := option Value.

(** A Go call with side effects: from the state before to the result
    and the state after. *)
Definition Eff (A : Type) := St -> A * St.

Class ResourceHandler (H : Type) := {
  OnAdd : H -> iface -> Eff (iface * err);
  OnUpdate : H -> iface -> iface -> Eff (iface * err);
  OnDelete : H -> iface -> Eff err
}.

(** A func-typed field is [None] when nil. *)
Record ResourceHandlerFuncs := {
  AddFunc : option (iface -> Eff (iface * err));
  UpdateFunc : option (iface -> iface -> Eff (iface * err));
  DeleteFunc : option (iface -> Eff err)
}.

Definition ResourceHandlerFuncs_OnAdd (r : ResourceHandlerFuncs)
    (obj : iface) : Eff (iface * err) :=
  match AddFunc r with
  | Some f => f obj
  | None => fun s => ((None, None), s)
  end.

Definition ResourceHandlerFuncs_OnUpdate (r : ResourceHandlerFuncs)
    (oldObj newObj : iface) : Eff (iface * err) :=
  match UpdateFunc r with
  | Some f => f oldObj newObj
  | None => fun s => ((None, None), s)
  end.

Definition ResourceHandlerFuncs_OnDelete (r : ResourceHandlerFuncs)
    (obj : iface) : Eff err :=
  match DeleteFunc r with
  | Some f => f obj
  | None => fun s => (None, s)
  end.

#[global] Instance ResourceHandlerFuncs_handler :
  ResourceHandler ResourceHandlerFuncs := {
  OnAdd := ResourceHandlerFuncs_OnAdd;
  OnUpdate := ResourceHandlerFuncs_OnUpdate;
  OnDelete := ResourceHandlerFuncs_OnDelete
}.

(** *** Observing calls

    To count calls, a callback is wrapped so that every invocation
    appends the arguments it received to a journal kept next to the
    callback's own state. *)

Inductive Seen :=
| SeenAdd (obj : iface)
| SeenUpdate (oldObj newObj : iface)
| SeenDelete (obj : iface).

End Handler.

Arguments OnAdd {Value St H _}.
Arguments OnUpdate {Value St H _}.
Arguments OnDelete {Value St H _}.
Arguments AddFunc {Value St}.
Arguments UpdateFunc {Value St}.
Arguments DeleteFunc {Value St}.
Arguments SeenAdd {Value}.
Arguments SeenUpdate {Value}.
Arguments SeenDelete {Value}.

Section Journal.

Variables (Value St : Type).

Definition journalAdd (f : iface Value -> Eff St (iface Value * err))
    : iface Value -> Eff (St * list (Seen Value)) (iface Value * err) :=
  fun obj sj =>
    let '(r, s') := f obj (fst sj) in
    (r, (s', snd sj ++ [SeenAdd obj])).

Definition journalUpdate
    (f : iface Value -> iface Value -> Eff St (iface Value * err))
    : iface Value -> iface Value ->
      Eff (St * list (Seen Value)) (iface Value * err) :=
  fun oldObj newObj sj =>
    let '(r, s') := f oldObj newObj (fst sj) in
    (r, (s', snd sj ++ [SeenUpdate oldObj newObj])).

Definition journalDelete (f : iface Value -> Eff St err)
    : iface Value -> Eff (St * list (Seen Value)) err :=
  fun obj sj =>
    let '(r, s') := f obj (fst sj) in
    (r, (s', snd sj ++ [SeenDelete obj])).

End Journal.
End api.

(** ** The parts of the Kubernetes libraries the Endpoints helper uses *)

Module schema.

Record GroupVersion := { Group : string; Version : string }.

(** [GroupVersion.String]: the bare version for the core group. *)
Definition String (gv : GroupVersion) : string :=
  if String.eqb (Group gv) "" then Version gv
  else (Group gv ++ "/" ++ Version gv)%string.

End schema.

Module core.

Definition SchemeGroupVersion : schema.GroupVersion :=
  {| schema.Group := ""; schema.Version := "v1" |}.

Record EndpointSubset := {
  Addresses : list string;
  Ports : list Z
}.

(** [TypeMeta] and [ObjectMeta] are embedded structs in Go, so
    [cur.Namespace] reads [Namespace (ObjectMeta cur)]. *)
Record Endpoints := {
  TypeMeta : metav1.TypeMeta;
  ObjectMeta : metav1.ObjectMeta;
  Subsets : list EndpointSubset
}.

End core.

Module types.

Inductive PatchType :=
| JSONPatchType
| MergePatchType
| StrategicMergePatchType.

End types.

Module kutil.

(** Modelled from the spec: the declaration of [VerbType] and of its
    constants is not among the sources; section 3 of the spec gives
    the outcome tag as the tri-state Created / Patched / Unchanged. *)
Inductive VerbType := VerbUnchanged | VerbCreated | VerbPatched.

End kutil.

(** A [[]byte]. *)
Definition bytes := list byte.

#[export] Instance byte_eq_decision : EqDecision byte := Byte.byte_eq_dec.

(** What [json.Marshal] and [CreateTwoWayMergePatch] hand back: the bytes,
    or a non-nil error. *)
Definition result := (bytes + error)%type.

(** ** The typed client

    [c.CoreV1().Endpoints(ns)] speaks to the API server over the wire:
    a request carries the namespace, the name and a serialized body, the
    answer is decoded into an object of its own.  [S] is the state of
    the server, a [None] object a nil pointer. *)

Module kubernetes.

Record Interface (S : Type) := {
  Get : string -> string -> S -> (option core.Endpoints * err) * S;
  Create : string -> option core.Endpoints -> S ->
           (option core.Endpoints * err) * S;
  Patch : string -> string -> types.PatchType -> bytes -> S ->
          (option core.Endpoints * err) * S
}.
Arguments Get {S}.
Arguments Create {S}.
Arguments Patch {S}.

End kubernetes.

(** ** The caller's transform

    A [func(in *core.Endpoints) *core.Endpoints] works on the object it is
    handed: it may rewrite that object in place, and it hands back the
    same pointer, a pointer to an object of its own making, or nil.  It
    has no other way into the heap: a closure that kept a pointer to
    some other object and writes through it is outside this model, and
    so is one that panics. *)

Inductive Returned :=
| ReturnsArgument
| ReturnsNew (e : core.Endpoints)
| ReturnsNil.

Record Transform := {
  (** handed a pointer to an object holding [e]: what the object holds
      afterwards, and what comes back *)
  onObject : core.Endpoints -> core.Endpoints * Returned;
  (** handed nil: the object that comes back, if any *)
  onNil : option core.Endpoints
}.

(** The content of the object a transform hands back for [e]. *)
Definition transformed (t : Transform) (e : core.Endpoints)
    : option core.Endpoints :=
  match onObject t e with
  | (e', ReturnsArgument) => Some e'
  | (_, ReturnsNew e2) => Some e2
  | (_, ReturnsNil) => None
  end.

(** ** core/v1/endpoints.go *)

(** The requests a run sends to the API server, in order. *)
Inductive Call :=
| CallGet (ns name : string)
| CallCreate (ns : string) (obj : option core.Endpoints)
| CallPatch (ns name : string) (pt : types.PatchType) (data : bytes).

(** A pointer is a location of the heap, or nil. *)
Definition loc := nat.
Definition ptr := option loc.

Record World (S : Type) := {
  heap : list core.Endpoints;
  server : S;
  calls : list Call
}.
Arguments heap {S}.
Arguments server {S}.
Arguments calls {S}.

(** The world after a request [call] that left the server in [s'] and
    was answered with the object [resp], and the pointer the caller gets
    for that answer. *)
Definition after {S} (w : World S) (call : Call) (s' : S)
    (resp : option core.Endpoints) : World S :=
  {| heap := match resp with
             | Some e => heap w ++ [e]
             | None => heap w
             end;
     server := s';
     calls := calls w ++ [call] |}.

Definition received {S} (w : World S) (resp : option core.Endpoints) : ptr :=
  match resp with
  | Some _ => Some (List.length (heap w))
  | None => None
  end.

(** What [p] points to in [w]; nothing for nil. *)
Definition load {S} (w : World S) (p : ptr) : option core.Endpoints :=
  match p with
  | Some l => heap w !! l
  | None => None
  end.

(** A run returns a value, or panics; either way it leaves a world
    behind: what was allocated, where the server stands and which
    requests went out up to that point. *)
Inductive Outcome (S A : Type) :=
| Returns (a : A) (w : World S)
| Panics (w : World S).
Arguments Returns {S A}.
Arguments Panics {S A}.

Definition Go (S A : Type) := World S -> Outcome S A.

Definition ret {S A} (a : A) : Go S A := fun w => Returns a w.

Definition bind {S A B} (m : Go S A) (k : A -> Go S B) : Go S B :=
  fun w =>
    match m w with
    | Returns a w' => k a w'
    | Panics w' => Panics w'
    end.

Declare Scope go_scope.
Delimit Scope go_scope with go.
Notation "x <- m ;; k" := (bind m (fun x => k))
  (at level 100, m at next level, right associativity) : go_scope.

Module v1.
Section Endpoints.
Local Open Scope go_scope.

Variable S : Type.

(** [json.Marshal] on a [*core.Endpoints] ([None] for nil) and
    [strategicpatch.CreateTwoWayMergePatch] at the schema of
    [core.Endpoints]. *)
Variable Marshal : option core.Endpoints -> result.
Variable CreateTwoWayMergePatch : bytes -> bytes -> result.

(** *** Heap primitives *)

(** [&core.Endpoints{...}]: a new object at the next free location. *)
Definition alloc (e : core.Endpoints) : Go S ptr :=
  fun w =>
    Returns (Some (List.length (heap w)))
            {| heap := heap w ++ [e]; server := server w;
               calls := calls w |}.

(** Reading through [p]; nil has no pointee.  Go has no pointer to a
    location that is not allocated; here such a read ends the run. *)
Definition read (p : ptr) : Go S (option core.Endpoints) :=
  fun w =>
    match p with
    | None => Returns None w
    | Some l =>
        match heap w !! l with
        | Some e => Returns (Some e) w
        | None => Panics w
        end
    end.

(** A field selection [p.f]: panics on nil. *)
Definition deref (p : ptr) : Go S core.Endpoints :=
  o <- read p ;;
  match o with
  | Some e => ret e
  | None => fun w => Panics w
  end.

Definition store (l : loc) (e : core.Endpoints) : Go S unit :=
  fun w =>
    Returns tt {| heap := <[l := e]> (heap w); server := server w;
                  calls := calls w |}.

(** The generated [DeepCopy]: nil for nil, else a new object with the
    same content. *)
Definition DeepCopy (p : ptr) : Go S ptr :=
  o <- read p ;;
  match o with
  | None => ret None
  | Some e => alloc e
  end.

(** [transform(p)]. *)
Definition call (transform : Transform) (p : ptr) : Go S ptr :=
  match p with
  | None =>
      match onNil transform with
      | Some e => alloc e
      | None => ret None
      end
  | Some l =>
      e <- deref p ;;
      let '(e', r) := onObject transform e in
      _ <- store l e' ;;
      match r with
      | ReturnsArgument => ret p
      | ReturnsNew e2 => alloc e2
      | ReturnsNil => ret None
      end
  end.

(** *** Client calls *)

(** The decoded answer of the server becomes an object of its own. *)
Definition answer (r : option core.Endpoints * err) : Go S (ptr * err) :=
  match fst r with
  | Some e => p <- alloc e ;; ret (p, snd r)
  | None => ret (None, snd r)
  end.

(** One request: the server moves on, the call is logged. *)
Definition request (call : Call)
    (f : S -> (option core.Endpoints * err) * S) : Go S (ptr * err) :=
  fun w =>
    let '(r, s') := f (server w) in
    answer r {| heap := heap w; server := s';
                calls := calls w ++ [call] |}.

Definition Endpoints_Get (c : kubernetes.Interface S) (ns name : string)
    : Go S (ptr * err) :=
  request (CallGet ns name) (kubernetes.Get c ns name).

Definition Endpoints_Create (c : kubernetes.Interface S) (ns : string)
    (p : ptr) : Go S (ptr * err) :=
  o <- read p ;;
  request (CallCreate ns o) (kubernetes.Create c ns o).

Definition Endpoints_Patch (c : kubernetes.Interface S) (ns name : string)
    (pt : types.PatchType) (data : bytes) : Go S (ptr * err) :=
  request (CallPatch ns name pt data) (kubernetes.Patch c ns name pt data).

(** *** The helpers *)

(** [len(patch) == 0 || string(patch) == "{}"] *)
Definition emptyPatch (patch : bytes) : bool :=
  Nat.eqb (List.length patch) 0
  || bool_decide (patch = list_byte_of_string "{}").

(** After the emptiness test the log line and the request both read
    [cur.Namespace] and [cur.Name], so a nil [cur] panics there. *)
Definition PatchEndpointsObject (c : kubernetes.Interface S)
    (cur mod_ : ptr) : Go S (ptr * kutil.VerbType * err) :=
  ocur <- read cur ;;
  match Marshal ocur with
  | inr e => ret (None, kutil.VerbUnchanged, Some e)
  | inl curJson =>
      omod <- read mod_ ;;
      match Marshal omod with
      | inr e => ret (None, kutil.VerbUnchanged, Some e)
      | inl modJson =>
          match CreateTwoWayMergePatch curJson modJson with
          | inr e => ret (None, kutil.VerbUnchanged, Some e)
          | inl patch =>
              if emptyPatch patch then
                ret (cur, kutil.VerbUnchanged, None)
              else
                e <- deref cur ;;
                let meta := core.ObjectMeta e in
                r <- Endpoints_Patch c (metav1.Namespace meta)
                       (metav1.Name meta) types.StrategicMergePatchType
                       patch ;;
                let '(out, err) := r in
                ret (out, kutil.VerbPatched, err)
          end
      end
  end.

Definition PatchEndpoints (c : kubernetes.Interface S) (cur : ptr)
    (transform : Transform) : Go S (ptr * kutil.VerbType * err) :=
  copy <- DeepCopy cur ;;
  mod_ <- call transform copy ;;
  PatchEndpointsObject c cur mod_.

(** The object literal of the create path; [Subsets] is left at its
    zero value.  In Go the literal copies [meta] shallowly, so the new
    object shares the maps and slices of the caller's [meta]; metadata
    is a value here, and no statement below is about what the caller's
    [meta] holds after the call. *)
Definition bare (meta : metav1.ObjectMeta) : core.Endpoints :=
  {| core.TypeMeta :=
       {| metav1.Kind := "Endpoints";
          metav1.APIVersion := schema.String core.SchemeGroupVersion |};
     core.ObjectMeta := meta;
     core.Subsets := [] |}.

Definition CreateOrPatchEndpoints (c : kubernetes.Interface S)
    (meta : metav1.ObjectMeta) (transform : Transform)
    : Go S (ptr * kutil.VerbType * err) :=
  r <- Endpoints_Get c (metav1.Namespace meta) (metav1.Name meta) ;;
  let '(cur, err) := r in
  if kerr.IsNotFound err then
    fresh <- alloc (bare meta) ;;
    mod_ <- call transform fresh ;;
    r <- Endpoints_Create c (metav1.Namespace meta) mod_ ;;
    let '(out, err) := r in
    ret (out, kutil.VerbCreated, err)
  else
    match err with
    | Some _ => ret (None, kutil.VerbUnchanged, err)
    | None => PatchEndpoints c cur transform
    end.

End Endpoints.

Arguments alloc {S}.
Arguments read {S}.
Arguments deref {S}.
Arguments store {S}.
Arguments DeepCopy {S}.
Arguments call {S}.
Arguments answer {S}.
Arguments request {S}.
Arguments Endpoints_Get {S}.
Arguments Endpoints_Create {S}.
Arguments Endpoints_Patch {S}.
Arguments PatchEndpointsObject {S}.
Arguments PatchEndpoints {S}.
Arguments CreateOrPatchEndpoints {S}.

End v1.

(** ** A scripted client and a toy codec, to run the helpers on *)

Module Demo.

(** The server answers the requests with the entries of a script, one
    after the other, whatever the request. *)
Definition Script := list (option core.Endpoints * err).

Definition next (s : Script) : (option core.Endpoints * err) * Script :=
  match s with
  | r :: s' => (r, s')
  | [] => ((None, Some (PlainError "connection refused")), [])
  end.

Definition scripted : kubernetes.Interface Script :=
  {| kubernetes.Get := fun _ _ => next;
     kubernetes.Create := fun _ _ => next;
     kubernetes.Patch := fun _ _ _ _ => next |}.

(** Renders the name and the addresses; refuses an object without a
    name. *)
Definition Marshal (o : option core.Endpoints) : result :=
  match o with
  | None => inl (list_byte_of_string "null")
  | Some e =>
      let name := metav1.Name (core.ObjectMeta e) in
      if String.eqb name "" then inr (PlainError "json: no name")
      else
        inl (list_byte_of_string
               (name ++ ":" ++
                String.concat ","
                  (concat (map core.Addresses (core.Subsets e)))))
  end.

(** The whole modified document when it differs, ["{}"] when it does
    not; refuses to patch towards ["null"]. *)
Definition CreateTwoWayMergePatch (original modified : bytes) : result :=
  if bool_decide (modified = list_byte_of_string "null") then
    inr (PlainError "patch: no target")
  else if bool_decide (original = modified) then
    inl (list_byte_of_string "{}")
  else inl modified.

Definition meta : metav1.ObjectMeta :=
  {| metav1.Name := "web"; metav1.Namespace := "prod";
     metav1.ResourceVersion := ""; metav1.Labels := [("app", "web")] |}.

Definition web (addrs : list string) (rv : string) : core.Endpoints :=
  {| core.TypeMeta := {| metav1.Kind := "Endpoints";
                         metav1.APIVersion := "v1" |};
     core.ObjectMeta :=
       {| metav1.Name := "web"; metav1.Namespace := "prod";
          metav1.ResourceVersion := rv;
          metav1.Labels := [("app", "web")] |};
     core.Subsets := [ {| core.Addresses := addrs;
                          core.Ports := [8080%Z] |} ] |}.

Definition setSubsets (addrs : list string) (e : core.Endpoints)
    : core.Endpoints :=
  {| core.TypeMeta := core.TypeMeta e;
     core.ObjectMeta := core.ObjectMeta e;
     core.Subsets := [ {| core.Addresses := addrs;
                          core.Ports := [8080%Z] |} ] |}.

(** The usual transform: rewrite the object in place and return it. *)
Definition inPlace (f : core.Endpoints -> core.Endpoints) : Transform :=
  {| onObject := fun e => (f e, ReturnsArgument); onNil := None |}.

(** A transform that scribbles on its argument and returns nothing. *)
Definition dropIt (f : core.Endpoints -> core.Endpoints) : Transform :=
  {| onObject := fun e => (f e, ReturnsNil); onNil := None |}.

(** A transform that blanks the name, which the toy codec refuses. *)
Definition unname (e : core.Endpoints) : core.Endpoints :=
  {| core.TypeMeta := core.TypeMeta e;
     core.ObjectMeta :=
       {| metav1.Name := "";
          metav1.Namespace := metav1.Namespace (core.ObjectMeta e);
          metav1.ResourceVersion :=
            metav1.ResourceVersion (core.ObjectMeta e);
          metav1.Labels := metav1.Labels (core.ObjectMeta e) |};
     core.Subsets := core.Subsets e |}.

Definition world (h : list core.Endpoints) (s : Script) : World Script :=
  {| heap := h; server := s; calls := [] |}.

Definition notFound : error :=
  StatusError metav1.StatusReasonNotFound "endpoints web not found".

Definition timeout : error :=
  StatusError metav1.StatusReasonServerTimeout "timeout".

(** A handler over natural numbers that only knows about deletions, and
    one whose three callbacks count their calls in the state. *)
Definition onlyDelete : api.ResourceHandlerFuncs nat nat :=
{| api.AddFunc := None; api.UpdateFunc := None;
   api.DeleteFunc := Some (fun _ n => (None, Datatypes.S n)) |}.

Definition silent : api.ResourceHandlerFuncs nat nat :=
{| api.AddFunc := None; api.UpdateFunc := None; api.DeleteFunc := None |}.

Definition bump : api.iface nat -> api.Eff nat (api.iface nat * err) :=
fun obj n => ((obj, None), Datatypes.S n).

Definition keepNew
  : api.iface nat -> api.iface nat -> api.Eff nat (api.iface nat * err) :=
fun _ newObj n => ((newObj, Some (PlainError "stale")), Datatypes.S n).

Definition refuse : api.iface nat -> api.Eff nat err :=
fun _ n => (Some (PlainError "kept"), Datatypes.S n).

Definition counting : api.ResourceHandlerFuncs nat nat :=
{| api.AddFunc := Some bump; api.UpdateFunc := Some keepNew;
   api.DeleteFunc := Some refuse |}.

Definition journaled
  : api.ResourceHandlerFuncs nat (nat * list (api.Seen nat)) :=
{| api.AddFunc := Some (api.journalAdd nat nat bump);
   api.UpdateFunc := Some (api.journalUpdate nat nat keepNew);
   api.DeleteFunc := Some (api.journalDelete nat nat refuse) |}.

Definition CreateOrPatchEndpoints :=
  v1.CreateOrPatchEndpoints Marshal CreateTwoWayMergePatch scripted.
Definition PatchEndpoints :=
  v1.PatchEndpoints Marshal CreateTwoWayMergePatch scripted.
Definition PatchEndpointsObject :=
  v1.PatchEndpointsObject Marshal CreateTwoWayMergePatch scripted.

End Demo.

(** * Properties *)

(** ** Runs of the helpers on the scripted client *)

Example run_create :
  Demo.CreateOrPatchEndpoints Demo.meta
    (Demo.inPlace (Demo.setSubsets ["10.0.0.1"]))
    (Demo.world []
       [(None, Some Demo.notFound);
        (Some (Demo.web ["10.0.0.1"] "1"), None)])
  = Returns (Some 1, kutil.VerbCreated, None)
      {| heap := [Demo.setSubsets ["10.0.0.1"] (v1.bare Demo.meta);
                  Demo.web ["10.0.0.1"] "1"];
         server := [];
         calls := [CallGet "prod" "web";
                   CallCreate "prod"
                     (Some (Demo.setSubsets ["10.0.0.1"]
                              (v1.bare Demo.meta)))] |}.
Proof. vm_compute. reflexivity. Qed.

Example run_unchanged :
  Demo.CreateOrPatchEndpoints Demo.meta
    (Demo.inPlace (Demo.setSubsets ["10.0.0.1"]))
    (Demo.world [] [(Some (Demo.web ["10.0.0.1"] "7"), None)])
  = Returns (Some 0, kutil.VerbUnchanged, None)
      {| heap := [Demo.web ["10.0.0.1"] "7";
                  Demo.web ["10.0.0.1"] "7"];
         server := [];
         calls := [CallGet "prod" "web"] |}.
Proof. vm_compute. reflexivity. Qed.

Example run_patch :
  Demo.CreateOrPatchEndpoints Demo.meta
    (Demo.inPlace (Demo.setSubsets ["10.0.0.2"]))
    (Demo.world []
       [(Some (Demo.web ["10.0.0.1"] "7"), None);
        (Some (Demo.web ["10.0.0.2"] "8"), None)])
  = Returns (Some 2, kutil.VerbPatched, None)
      {| heap := [Demo.web ["10.0.0.1"] "7";
                  Demo.web ["10.0.0.2"] "7";
                  Demo.web ["10.0.0.2"] "8"];
         server := [];
         calls := [CallGet "prod" "web";
                   CallPatch "prod" "web" types.StrategicMergePatchType
                     (list_byte_of_string "web:10.0.0.2")] |}.
Proof. vm_compute. reflexivity. Qed.

(** A nil [cur] with a patch to send: the run panics at the log line,
    before any request. *)
Example run_nil_current :
  Demo.PatchEndpointsObject None (Some 0)
    (Demo.world [Demo.web ["10.0.0.1"] "7"] [])
  = Panics (Demo.world [Demo.web ["10.0.0.1"] "7"] []).
Proof. vm_compute. reflexivity. Qed.

(** A transform that scribbles on what it is handed and returns nil:
    the scribble lands on the copy, the fetched object keeps its
    content. *)
Example run_scribble :
  Demo.PatchEndpoints (Some 0) (Demo.dropIt Demo.unname)
    (Demo.world [Demo.web ["10.0.0.1"] "7"] [])
  = Returns (None, kutil.VerbUnchanged, Some (PlainError "patch: no target"))
      (Demo.world [Demo.web ["10.0.0.1"] "7";
                   Demo.unname (Demo.web ["10.0.0.1"] "7")] []).
Proof. vm_compute. reflexivity. Qed.

(** ** The notification adaptor *)

Section HandlerFacts.

Context {Value St : Type}.
Implicit Types (r : api.ResourceHandlerFuncs Value St).
Implicit Types (obj oldObj newObj : api.iface Value) (s : St).

(** C7.  When the function field of a method is nil, [OnAdd] and
    [OnUpdate] return (nil, nil) and [OnDelete] returns nil, whatever
    the arguments, and nothing else happens: the state is as before. *)
Theorem unset_callbacks_are_noops (r : api.ResourceHandlerFuncs Value St) :
  (api.AddFunc r = None ->
     forall obj s, api.OnAdd r obj s = ((None, None), s)) /\
  (api.UpdateFunc r = None ->
     forall oldObj newObj s,
       api.OnUpdate r oldObj newObj s = ((None, None), s)) /\
  (api.DeleteFunc r = None ->
     forall obj s, api.OnDelete r obj s = (None, s)).
Proof.
  repeat split; intros Hnil **; cbn;
    [ unfold api.ResourceHandlerFuncs_OnAdd
    | unfold api.ResourceHandlerFuncs_OnUpdate
    | unfold api.ResourceHandlerFuncs_OnDelete ];
    now rewrite Hnil.
Qed.

(** C8.  When the function field of a method is set, the method is
    one call of that field on the method's own arguments: it returns
    what the field returns and leaves the state the field leaves.
    With the fields journaled, a method call adds exactly one entry to
    the journal, holding the arguments of the method. *)
Theorem set_callbacks_delegate_once :
  (forall r f, api.AddFunc r = Some f ->
     forall obj s, api.OnAdd r obj s = f obj s) /\
  (forall r f, api.UpdateFunc r = Some f ->
     forall oldObj newObj s,
       api.OnUpdate r oldObj newObj s = f oldObj newObj s) /\
  (forall r f, api.DeleteFunc r = Some f ->
     forall obj s, api.OnDelete r obj s = f obj s) /\
  (forall (rj : api.ResourceHandlerFuncs Value (St * list (api.Seen Value)))
          f,
     api.AddFunc rj = Some (api.journalAdd Value St f) ->
     forall obj s j,
       api.OnAdd rj obj (s, j)
       = (fst (f obj s), (snd (f obj s), j ++ [api.SeenAdd obj]))) /\
  (forall (rj : api.ResourceHandlerFuncs Value (St * list (api.Seen Value)))
          f,
     api.UpdateFunc rj = Some (api.journalUpdate Value St f) ->
     forall oldObj newObj s j,
       api.OnUpdate rj oldObj newObj (s, j)
       = (fst (f oldObj newObj s),
          (snd (f oldObj newObj s), j ++ [api.SeenUpdate oldObj newObj]))) /\
  (forall (rj : api.ResourceHandlerFuncs Value (St * list (api.Seen Value)))
          f,
     api.DeleteFunc rj = Some (api.journalDelete Value St f) ->
     forall obj s j,
       api.OnDelete rj obj (s, j)
       = (fst (f obj s), (snd (f obj s), j ++ [api.SeenDelete obj]))).
Proof.
  repeat split; intros rr f Hset **; cbn.
  - unfold api.ResourceHandlerFuncs_OnAdd. now rewrite Hset.
  - unfold api.ResourceHandlerFuncs_OnUpdate. now rewrite Hset.
  - unfold api.ResourceHandlerFuncs_OnDelete. now rewrite Hset.
  - unfold api.ResourceHandlerFuncs_OnAdd. rewrite Hset.
    unfold api.journalAdd. cbn. now destruct (f obj s).
  - unfold api.ResourceHandlerFuncs_OnUpdate. rewrite Hset.
    unfold api.journalUpdate. cbn. now destruct (f oldObj newObj s).
  - unfold api.ResourceHandlerFuncs_OnDelete. rewrite Hset.
    unfold api.journalDelete. cbn. now destruct (f obj s).
Qed.

End HandlerFacts.

Lemma unset_callbacks_are_noops_witness :
  api.OnAdd Demo.silent (Some 4) 10 = ((None, None), 10) /\
  api.OnUpdate Demo.silent (Some 4) (Some 5) 10 = ((None, None), 10) /\
  api.OnDelete Demo.silent (Some 4) 10 = (None, 10) /\
  api.OnAdd Demo.onlyDelete None 3 = ((None, None), 3).
Proof.
  destruct (unset_callbacks_are_noops Demo.silent) as (HA & HU & HD).
  destruct (unset_callbacks_are_noops Demo.onlyDelete) as (HA' & _ & _).
  split; [apply HA; reflexivity |].
  split; [apply HU; reflexivity |].
  split; [apply HD; reflexivity | apply HA'; reflexivity].
Defined.

Lemma set_callbacks_delegate_once_witness :
  api.OnAdd Demo.counting (Some 4) 10 = ((Some 4, None), 11) /\
  api.OnUpdate Demo.counting (Some 4) (Some 5) 10
    = ((Some 5, Some (PlainError "stale")), 11) /\
  api.OnDelete Demo.counting None 10 = (Some (PlainError "kept"), 11) /\
  api.OnAdd Demo.journaled (Some 4) (10, [api.SeenDelete None])
    = ((Some 4, None), (11, [api.SeenDelete None; api.SeenAdd (Some 4)])) /\
  api.OnUpdate Demo.journaled (Some 4) (Some 5) (10, [])
    = ((Some 5, Some (PlainError "stale")),
       (11, [api.SeenUpdate (Some 4) (Some 5)])) /\
  api.OnDelete Demo.journaled (Some 4) (10, [])
    = (Some (PlainError "kept"), (11, [api.SeenDelete (Some 4)])).
Proof.
  destruct (@set_callbacks_delegate_once nat nat)
    as (HA & HU & HD & JA & JU & JD).
  split; [apply (HA Demo.counting Demo.bump); reflexivity |].
  split; [apply (HU Demo.counting Demo.keepNew); reflexivity |].
  split; [apply (HD Demo.counting Demo.refuse); reflexivity |].
  split; [apply (JA Demo.journaled Demo.bump); reflexivity |].
  split; [apply (JU Demo.journaled Demo.keepNew); reflexivity |].
  apply (JD Demo.journaled Demo.refuse); reflexivity.
Defined.

(** ** The create-or-patch helper *)

Section EndpointsFacts.

Context {S : Type}.
Variable Marshal : option core.Endpoints -> result.
Variable CreateTwoWayMergePatch : bytes -> bytes -> result.
Variable c : kubernetes.Interface S.

Local Abbreviation PatchEndpointsObject :=
  (v1.PatchEndpointsObject Marshal CreateTwoWayMergePatch c).
Local Abbreviation PatchEndpoints :=
  (v1.PatchEndpoints Marshal CreateTwoWayMergePatch c).
Local Abbreviation CreateOrPatchEndpoints :=
  (v1.CreateOrPatchEndpoints Marshal CreateTwoWayMergePatch c).

Implicit Types (w : World S) (l : loc) (e : core.Endpoints) (p cur : ptr).

(** *** Stepping through a run *)

Lemma bind_Returns {A B} (m : Go S A) (k : A -> Go S B) w a w' :
  m w = Returns a w' -> bind m k w = k a w'.
Proof. intros Hm. unfold bind. now rewrite Hm. Qed.

Lemma read_live w l e :
  heap w !! l = Some e -> v1.read (Some l) w = Returns (Some e) w.
Proof. intros Hl. unfold v1.read. now rewrite Hl. Qed.

Lemma read_nil w : v1.read None w = Returns None w.
Proof. reflexivity. Qed.

Lemma deref_live w l e :
  heap w !! l = Some e -> v1.deref (Some l) w = Returns e w.
Proof.
  intros Hl. unfold v1.deref.
  now rewrite (bind_Returns _ _ _ _ _ (read_live _ _ _ Hl)).
Qed.

Lemma request_spec call f w resp (er : err) s' :
  f (server w) = ((resp, er), s') ->
  v1.request call f w = Returns (received w resp, er) (after w call s' resp).
Proof.
  intros Hf. unfold v1.request. rewrite Hf.
  unfold v1.answer, after, received. now destruct resp.
Qed.

Lemma load_received w call s' resp :
  load (after w call s' resp) (received w resp) = resp.
Proof.
  destruct resp as [e|]; [|reflexivity]. cbn.
  now apply list_lookup_middle.
Qed.

Lemma after_keeps w call s' resp l e :
  heap w !! l = Some e -> heap (after w call s' resp) !! l = Some e.
Proof.
  intros Hl. destruct resp as [e'|]; [|exact Hl]. cbn.
  now apply lookup_app_l_Some.
Qed.

(** *** Allocation, copy and the transform *)

Lemma alloc_spec w e :
  v1.alloc e w
  = Returns (Some (List.length (heap w)))
      {| heap := heap w ++ [e]; server := server w; calls := calls w |}.
Proof. reflexivity. Qed.

Lemma DeepCopy_live w l e :
  heap w !! l = Some e ->
  v1.DeepCopy (Some l) w
  = Returns (Some (List.length (heap w)))
      {| heap := heap w ++ [e]; server := server w; calls := calls w |}.
Proof.
  intros Hl. unfold v1.DeepCopy.
  now rewrite (bind_Returns _ _ _ _ _ (read_live _ _ _ Hl)).
Qed.

(** A transform handed a live object returns, hands back a readable
    pointer to [transformed t e], leaves what it was handed holding the
    rewritten content, and leaves every other object, the server and the
    call log alone. *)
Lemma call_live (t : Transform) w l e :
  heap w !! l = Some e ->
  exists m w',
    v1.call t (Some l) w = Returns m w' /\
    v1.read m w' = Returns (transformed t e) w' /\
    server w' = server w /\ calls w' = calls w /\
    heap w' !! l = Some (fst (onObject t e)) /\
    (forall l0 e0, l0 <> l -> heap w !! l0 = Some e0 ->
                   heap w' !! l0 = Some e0).
Proof.
  intros Hl. pose proof (lookup_lt_Some _ _ _ Hl) as Hlt.
  unfold v1.call, transformed.
  rewrite (bind_Returns _ _ _ _ _ (deref_live _ _ _ Hl)).
  destruct (onObject t e) as [e' r]. unfold bind, v1.store. cbn [fst].
  destruct r as [|e2|]; cbn.
  - eexists _, _. split; [reflexivity|]. cbn.
    rewrite list_lookup_insert_eq by exact Hlt.
    repeat split; trivial.
    intros l0 e0 Hne H0. now rewrite list_lookup_insert_ne.
  - eexists _, _. split; [reflexivity|]. cbn.
    rewrite list_lookup_middle by reflexivity.
    repeat split; trivial.
    + apply lookup_app_l_Some. now apply list_lookup_insert_eq.
    + intros l0 e0 Hne H0. apply lookup_app_l_Some.
      now rewrite list_lookup_insert_ne.
  - eexists _, _. split; [reflexivity|]. cbn.
    rewrite list_lookup_insert_eq by exact Hlt.
    repeat split; trivial.
    intros l0 e0 Hne H0. now rewrite list_lookup_insert_ne.
Qed.

(** *** [PatchEndpointsObject], branch by branch *)

Lemma emptyPatch_spec (patch : bytes) :
  v1.emptyPatch patch = true <->
  List.length patch = 0 \/ patch = list_byte_of_string "{}".
Proof.
  unfold v1.emptyPatch.
  rewrite orb_true_iff, Nat.eqb_eq, bool_decide_eq_true. tauto.
Qed.

Lemma PatchEndpointsObject_unchanged cur mod_ w ocur omod cj mj patch :
  v1.read cur w = Returns ocur w ->
  v1.read mod_ w = Returns omod w ->
  Marshal ocur = inl cj ->
  Marshal omod = inl mj ->
  CreateTwoWayMergePatch cj mj = inl patch ->
  v1.emptyPatch patch = true ->
  PatchEndpointsObject cur mod_ w
  = Returns (cur, kutil.VerbUnchanged, None) w.
Proof.
  intros Hcur Hmod Hcj Hmj Hdiff Hempty. unfold v1.PatchEndpointsObject.
  rewrite (bind_Returns _ _ _ _ _ Hcur), Hcj.
  rewrite (bind_Returns _ _ _ _ _ Hmod), Hmj, Hdiff, Hempty.
  reflexivity.
Qed.

Lemma PatchEndpointsObject_patches l mod_ w e omod cj mj patch resp perr s' :
  heap w !! l = Some e ->
  v1.read mod_ w = Returns omod w ->
  Marshal (Some e) = inl cj ->
  Marshal omod = inl mj ->
  CreateTwoWayMergePatch cj mj = inl patch ->
  v1.emptyPatch patch = false ->
  kubernetes.Patch c (metav1.Namespace (core.ObjectMeta e))
    (metav1.Name (core.ObjectMeta e)) types.StrategicMergePatchType patch
    (server w) = ((resp, perr), s') ->
  PatchEndpointsObject (Some l) mod_ w
  = Returns (received w resp, kutil.VerbPatched, perr)
      (after w
         (CallPatch (metav1.Namespace (core.ObjectMeta e))
            (metav1.Name (core.ObjectMeta e))
            types.StrategicMergePatchType patch)
         s' resp).
Proof.
  intros Hl Hmod Hcj Hmj Hdiff Hempty Hpatch.
  unfold v1.PatchEndpointsObject.
  rewrite (bind_Returns _ _ _ _ _ (read_live _ _ _ Hl)), Hcj.
  rewrite (bind_Returns _ _ _ _ _ Hmod), Hmj, Hdiff, Hempty.
  rewrite (bind_Returns _ _ _ _ _ (deref_live _ _ _ Hl)). cbn zeta.
  unfold v1.Endpoints_Patch.
  now rewrite (bind_Returns _ _ _ _ _ (request_spec _ _ _ _ _ _ Hpatch)).
Qed.

Lemma PatchEndpointsObject_frame l mod_ w e omod :
  heap w !! l = Some e ->
  v1.read mod_ w = Returns omod w ->
  exists r w',
    PatchEndpointsObject (Some l) mod_ w = Returns r w' /\
    (forall l0 e0, heap w !! l0 = Some e0 -> heap w' !! l0 = Some e0).
Proof.
  intros Hl Hmod. unfold v1.PatchEndpointsObject.
  rewrite (bind_Returns _ _ _ _ _ (read_live _ _ _ Hl)).
  destruct (Marshal (Some e)) as [cj|]; [|eexists _, _; split; eauto].
  rewrite (bind_Returns _ _ _ _ _ Hmod).
  destruct (Marshal omod) as [mj|]; [|eexists _, _; split; eauto].
  destruct (CreateTwoWayMergePatch cj mj) as [patch|];
    [|eexists _, _; split; eauto].
  destruct (v1.emptyPatch patch); [eexists _, _; split; eauto|].
  rewrite (bind_Returns _ _ _ _ _ (deref_live _ _ _ Hl)). cbn zeta.
  unfold v1.Endpoints_Patch.
  destruct (kubernetes.Patch c (metav1.Namespace (core.ObjectMeta e))
              (metav1.Name (core.ObjectMeta e))
              types.StrategicMergePatchType patch (server w))
    as [[resp perr] s'] eqn:Hpatch.
  rewrite (bind_Returns _ _ _ _ _ (request_spec _ _ _ _ _ _ Hpatch)).
  eexists _, _. split; [reflexivity|].
  intros l0 e0 H0. now apply after_keeps.
Qed.

(** *** [PatchEndpoints]: the transform runs on a copy *)

Lemma PatchEndpoints_steps (t : Transform) w l e :
  heap w !! l = Some e ->
  exists m w1,
    PatchEndpoints (Some l) t w = PatchEndpointsObject (Some l) m w1 /\
    v1.read m w1 = Returns (transformed t e) w1 /\
    server w1 = server w /\ calls w1 = calls w /\
    (forall l0 e0, heap w !! l0 = Some e0 -> heap w1 !! l0 = Some e0).
Proof.
  intros Hl. unfold v1.PatchEndpoints.
  rewrite (bind_Returns _ _ _ _ _ (DeepCopy_live _ _ _ Hl)).
  set (w0 := {| heap := heap w ++ [e]; server := server w;
                calls := calls w |}).
  assert (Hcopy : heap w0 !! List.length (heap w) = Some e)
    by now apply list_lookup_middle.
  destruct (call_live t w0 _ _ Hcopy)
    as (m & w1 & Hcall & Hread & Hsrv & Hcalls & _ & Hframe).
  rewrite (bind_Returns _ _ _ _ _ Hcall).
  exists m, w1. repeat split; trivial.
  intros l0 e0 H0. apply Hframe.
  - apply lookup_lt_Some in H0. lia.
  - cbn. now apply lookup_app_l_Some.
Qed.

(** *** [CreateOrPatchEndpoints]: the create path *)

Lemma create_path (meta : metav1.ObjectMeta) (t : Transform) w
    o gerr s1 resp cerr s2 :
  kubernetes.Get c (metav1.Namespace meta) (metav1.Name meta) (server w)
  = ((o, gerr), s1) ->
  kerr.IsNotFound gerr = true ->
  kubernetes.Create c (metav1.Namespace meta)
    (transformed t (v1.bare meta)) s1 = ((resp, cerr), s2) ->
  exists out w',
    CreateOrPatchEndpoints meta t w
    = Returns (out, kutil.VerbCreated, cerr) w' /\
    load w' out = resp /\
    server w' = s2 /\
    calls w' = calls w ++
      [CallGet (metav1.Namespace meta) (metav1.Name meta);
       CallCreate (metav1.Namespace meta) (transformed t (v1.bare meta))] /\
    (forall l0 e0, heap w !! l0 = Some e0 -> heap w' !! l0 = Some e0).
Proof.
  intros Hget Hnf Hcreate. unfold v1.CreateOrPatchEndpoints.
  unfold v1.Endpoints_Get.
  rewrite (bind_Returns _ _ _ _ _ (request_spec _ _ _ _ _ _ Hget)).
  rewrite Hnf.
  set (w1 := after w _ s1 o).
  rewrite (bind_Returns _ _ _ _ _ (alloc_spec w1 (v1.bare meta))).
  set (w2 := {| heap := heap w1 ++ [v1.bare meta]; server := server w1;
                calls := calls w1 |}).
  assert (Hfresh : heap w2 !! List.length (heap w1) = Some (v1.bare meta))
    by now apply list_lookup_middle.
  destruct (call_live t w2 _ _ Hfresh)
    as (m & w3 & Hcall & Hread & Hsrv & Hcalls & _ & Hframe).
  rewrite (bind_Returns _ _ _ _ _ Hcall).
  assert (Hcreate3 : kubernetes.Create c (metav1.Namespace meta)
                       (transformed t (v1.bare meta)) (server w3)
                     = ((resp, cerr), s2)) by now rewrite Hsrv.
  assert (Hsent : v1.Endpoints_Create c (metav1.Namespace meta) m w3
                  = Returns (received w3 resp, cerr)
                      (after w3
                         (CallCreate (metav1.Namespace meta)
                            (transformed t (v1.bare meta))) s2 resp)).
  { unfold v1.Endpoints_Create. rewrite (bind_Returns _ _ _ _ _ Hread).
    now apply request_spec. }
  rewrite (bind_Returns _ _ _ _ _ Hsent).
  eexists _, _. split; [reflexivity|].
  split; [apply load_received|]. split; [reflexivity|]. split.
  - cbn. rewrite Hcalls. cbn. now rewrite <- app_assoc.
  - intros l0 e0 H0.
    assert (H1 : heap w1 !! l0 = Some e0) by now apply after_keeps.
    apply after_keeps, Hframe.
    + apply lookup_lt_Some in H1. lia.
    + cbn. now apply lookup_app_l_Some.
Qed.

(** *** The claims on the create and the error path *)

(** C1.  When the fetch fails with a not-found error, whatever the
    identity and the transform, [CreateOrPatchEndpoints] builds a new
    Endpoints object carrying the given metadata, Kind "Endpoints" and
    the core API version "v1", applies the transform to it, sends one
    create request for what the transform hands back, and returns the
    server's answer with outcome Created and the error of the create. *)
Theorem absent_object_is_created (meta : metav1.ObjectMeta) (t : Transform)
    w o gerr s1 :
  kubernetes.Get c (metav1.Namespace meta) (metav1.Name meta) (server w)
  = ((o, gerr), s1) ->
  kerr.IsNotFound gerr = true ->
  let ns := metav1.Namespace meta in
  let fresh := v1.bare meta in
  let '((resp, cerr), s2) :=
    kubernetes.Create c ns (transformed t fresh) s1 in
  fresh = {| core.TypeMeta := {| metav1.Kind := "Endpoints";
                                 metav1.APIVersion := "v1" |};
             core.ObjectMeta := meta;
             core.Subsets := [] |} /\
  exists out w',
    CreateOrPatchEndpoints meta t w
    = Returns (out, kutil.VerbCreated, cerr) w' /\
    load w' out = resp /\
    server w' = s2 /\
    calls w' = calls w ++
      [CallGet ns (metav1.Name meta); CallCreate ns (transformed t fresh)].
Proof.
  intros Hget Hnf. cbv zeta.
  destruct (kubernetes.Create c (metav1.Namespace meta)
              (transformed t (v1.bare meta)) s1)
    as [[resp cerr] s2] eqn:Hcreate.
  split; [reflexivity|].
  destruct (create_path meta t w _ _ _ _ _ _ Hget Hnf Hcreate)
    as (out & w' & Hrun & Hload & Hsrv & Hcalls & _).
  now exists out, w'.
Qed.

(** C2.  When the fetch fails with an error that is not a not-found
    error, whatever the identity and the transform,
    [CreateOrPatchEndpoints] returns that error with outcome Unchanged
    and a nil object; the fetch is the only request sent, so neither a
    create nor a patch. *)
Theorem other_fetch_error_is_returned (meta : metav1.ObjectMeta)
    (t : Transform) w o (e : error) s1 :
  kubernetes.Get c (metav1.Namespace meta) (metav1.Name meta) (server w)
  = ((o, Some e), s1) ->
  kerr.IsNotFound (Some e) = false ->
  CreateOrPatchEndpoints meta t w
  = Returns (None, kutil.VerbUnchanged, Some e)
      (after w (CallGet (metav1.Namespace meta) (metav1.Name meta)) s1 o).
Proof.
  intros Hget Hnf. unfold v1.CreateOrPatchEndpoints, v1.Endpoints_Get.
  rewrite (bind_Returns _ _ _ _ _ (request_spec _ _ _ _ _ _ Hget)).
  now rewrite Hnf.
Qed.

(** C9.  The outcome names the branch taken, not its success.  When the
    object is absent and the create request fails,
    [CreateOrPatchEndpoints] returns outcome Created with the error of
    the create; when the patch request fails, [PatchEndpointsObject]
    returns outcome Patched with the error of the patch.  Neither
    outcome is Unchanged. *)
Theorem outcome_names_the_attempt :
  (forall (meta : metav1.ObjectMeta) (t : Transform) w o gerr s1 resp
          (ce : error) s2,
     kubernetes.Get c (metav1.Namespace meta) (metav1.Name meta) (server w)
     = ((o, gerr), s1) ->
     kerr.IsNotFound gerr = true ->
     kubernetes.Create c (metav1.Namespace meta)
       (transformed t (v1.bare meta)) s1 = ((resp, Some ce), s2) ->
     exists out verb w',
       CreateOrPatchEndpoints meta t w = Returns (out, verb, Some ce) w' /\
       verb = kutil.VerbCreated /\ verb <> kutil.VerbUnchanged) /\
  (forall l mod_ w e omod cj mj patch resp (pe : error) s',
     heap w !! l = Some e ->
     v1.read mod_ w = Returns omod w ->
     Marshal (Some e) = inl cj -> Marshal omod = inl mj ->
     CreateTwoWayMergePatch cj mj = inl patch ->
     v1.emptyPatch patch = false ->
     kubernetes.Patch c (metav1.Namespace (core.ObjectMeta e))
       (metav1.Name (core.ObjectMeta e)) types.StrategicMergePatchType
       patch (server w) = ((resp, Some pe), s') ->
     exists out verb w',
       PatchEndpointsObject (Some l) mod_ w
       = Returns (out, verb, Some pe) w' /\
       verb = kutil.VerbPatched /\ verb <> kutil.VerbUnchanged).
Proof.
  split.
  - intros meta t w o gerr s1 resp ce s2 Hget Hnf Hcreate.
    destruct (create_path meta t w _ _ _ _ _ _ Hget Hnf Hcreate)
      as (out & w' & Hrun & _).
    exists out, kutil.VerbCreated, w'. now repeat split.
  - intros l mod_ w e omod cj mj patch resp pe s'
           Hl Hmod Hcj Hmj Hd Hempty Hpatch.
    eexists _, kutil.VerbPatched, _. split; [|now split].
    eapply PatchEndpointsObject_patches; eassumption.
Qed.

(** *** The claims on the patch path *)

(** C3.  When the computed patch is empty, [PatchEndpointsObject]
    returns the very pointer [cur] it was given, outcome Unchanged and a
    nil error, in an unchanged world.  So for a present object that the
    transform leaves identical, [PatchEndpoints] returns the pointer to
    the fetched object, which still holds what was fetched, with outcome
    Unchanged, a nil error and no request sent. *)
Theorem identical_object_is_unchanged :
  (forall cur mod_ w ocur omod cj mj patch,
     v1.read cur w = Returns ocur w ->
     v1.read mod_ w = Returns omod w ->
     Marshal ocur = inl cj -> Marshal omod = inl mj ->
     CreateTwoWayMergePatch cj mj = inl patch ->
     v1.emptyPatch patch = true ->
     PatchEndpointsObject cur mod_ w
     = Returns (cur, kutil.VerbUnchanged, None) w) /\
  (forall (t : Transform) w l e cj mj patch,
     heap w !! l = Some e ->
     Marshal (Some e) = inl cj -> Marshal (transformed t e) = inl mj ->
     CreateTwoWayMergePatch cj mj = inl patch ->
     v1.emptyPatch patch = true ->
     exists w',
       PatchEndpoints (Some l) t w
       = Returns (Some l, kutil.VerbUnchanged, None) w' /\
       load w' (Some l) = Some e /\
       server w' = server w /\ calls w' = calls w).
Proof.
  split.
  - intros. eapply PatchEndpointsObject_unchanged; eassumption.
  - intros t w l e cj mj patch Hl Hcj Hmj Hd Hempty.
    destruct (PatchEndpoints_steps t w l e Hl)
      as (m & w1 & Hrun & Hread & Hsrv & Hcalls & Hframe).
    exists w1. rewrite Hrun. split.
    + apply (PatchEndpointsObject_unchanged (Some l) m w1 (Some e)
               (transformed t e) cj mj patch); trivial.
      apply read_live. now apply Hframe.
    + split; [cbn; now apply Hframe | now split].
Qed.

(** C4.  For a present object that the transform changes, that is, one
    whose computed patch is not empty, [PatchEndpoints] sends one
    strategic-merge patch request carrying the patch from the fetched
    object to the transformed one and, when the request succeeds,
    returns the server's answer, as received, with outcome Patched and a
    nil error. *)
Theorem changed_object_is_patched (t : Transform) w l e cj mj patch resp s' :
  heap w !! l = Some e ->
  Marshal (Some e) = inl cj -> Marshal (transformed t e) = inl mj ->
  CreateTwoWayMergePatch cj mj = inl patch ->
  v1.emptyPatch patch = false ->
  kubernetes.Patch c (metav1.Namespace (core.ObjectMeta e))
    (metav1.Name (core.ObjectMeta e)) types.StrategicMergePatchType patch
    (server w) = ((resp, None), s') ->
  exists out w',
    PatchEndpoints (Some l) t w = Returns (out, kutil.VerbPatched, None) w' /\
    load w' out = resp /\
    server w' = s' /\
    calls w' = calls w ++
      [CallPatch (metav1.Namespace (core.ObjectMeta e))
         (metav1.Name (core.ObjectMeta e))
         types.StrategicMergePatchType patch].
Proof.
  intros Hl Hcj Hmj Hd Hempty Hpatch.
  destruct (PatchEndpoints_steps t w l e Hl)
    as (m & w1 & Hrun & Hread & Hsrv & Hcalls & Hframe).
  rewrite <- Hsrv in Hpatch.
  pose proof (PatchEndpointsObject_patches l m w1 e _ _ _ _ _ _ _
                (Hframe _ _ Hl) Hread Hcj Hmj Hd Hempty Hpatch) as Hobj.
  eexists _, _. split; [rewrite Hrun; exact Hobj|].
  split; [apply load_received|]. split; [reflexivity|].
  cbn. now rewrite Hcalls.
Qed.

(** C6.  [PatchEndpoints] hands the transform a pointer to a new object
    that holds a copy of the fetched one, at a location different from
    the fetched object's; whatever the transform, the call returns and
    every object that was there before it, the fetched original among
    them, holds afterwards what it held before. *)
Theorem transform_runs_on_a_copy (t : Transform) w l e :
  heap w !! l = Some e ->
  let copy := List.length (heap w) in
  let w0 := {| heap := heap w ++ [e]; server := server w;
               calls := calls w |} in
  copy <> l /\
  load w0 (Some copy) = Some e /\
  PatchEndpoints (Some l) t w
  = bind (v1.call t (Some copy))
      (fun mod_ => PatchEndpointsObject (Some l) mod_) w0 /\
  exists r w',
    PatchEndpoints (Some l) t w = Returns r w' /\
    load w' (Some l) = Some e /\
    (forall l0 e0, heap w !! l0 = Some e0 -> heap w' !! l0 = Some e0).
Proof.
  intros Hl copy w0.
  split; [apply lookup_lt_Some in Hl; subst copy; lia|].
  split; [now apply list_lookup_middle|].
  split.
  - unfold v1.PatchEndpoints.
    now rewrite (bind_Returns _ _ _ _ _ (DeepCopy_live _ _ _ Hl)).
  - destruct (PatchEndpoints_steps t w l e Hl)
      as (m & w1 & Hrun & Hread & _ & _ & Hframe).
    destruct (PatchEndpointsObject_frame l m w1 e _ (Hframe _ _ Hl) Hread)
      as (r & w' & Hobj & Hframe').
    exists r, w'. rewrite Hrun. split; [exact Hobj|]. split.
    + cbn. now apply Hframe', Hframe.
    + intros l0 e0 H0. now apply Hframe', Hframe.
Qed.

(** C5.  When serializing the current object fails, or serializing the
    transformed object fails, or computing the two-way merge patch
    fails, [PatchEndpointsObject] returns that very error with outcome
    Unchanged and a nil object, and the world is as before: no request
    was sent, so no patch call. *)
Theorem marshal_or_diff_error_is_returned cur mod_ w ocur (e : error) :
  v1.read cur w = Returns ocur w ->
  (Marshal ocur = inr e \/
   (exists cj omod,
      Marshal ocur = inl cj /\ v1.read mod_ w = Returns omod w /\
      Marshal omod = inr e) \/
   (exists cj omod mj,
      Marshal ocur = inl cj /\ v1.read mod_ w = Returns omod w /\
      Marshal omod = inl mj /\ CreateTwoWayMergePatch cj mj = inr e)) ->
  PatchEndpointsObject cur mod_ w
  = Returns (None, kutil.VerbUnchanged, Some e) w.
Proof.
  intros Hcur Hfail. unfold v1.PatchEndpointsObject.
  rewrite (bind_Returns _ _ _ _ _ Hcur).
  destruct Hfail as [Hc | [(cj & omod & Hc & Hmod & Hm)
                          | (cj & omod & mj & Hc & Hmod & Hm & Hd)]];
    rewrite Hc; [reflexivity | |];
    rewrite (bind_Returns _ _ _ _ _ Hmod), Hm; [reflexivity |].
  now rewrite Hd.
Qed.

(** C10.  The computed patch counts as empty exactly when it has no
    bytes or is the two bytes of "{}".  An empty patch makes
    [PatchEndpointsObject] return the current pointer with outcome
    Unchanged and no request; any other patch, computed for a [cur]
    that is not nil, is sent in one strategic-merge patch request. *)
Theorem empty_patch_is_none_or_braces :
  (forall patch : bytes,
     v1.emptyPatch patch = true <->
     patch = [] \/ patch = [x7b; x7d]) /\
  (forall cur mod_ w ocur omod cj mj patch,
     v1.read cur w = Returns ocur w ->
     v1.read mod_ w = Returns omod w ->
     Marshal ocur = inl cj -> Marshal omod = inl mj ->
     CreateTwoWayMergePatch cj mj = inl patch ->
     (patch = [] \/ patch = [x7b; x7d]) ->
     PatchEndpointsObject cur mod_ w
     = Returns (cur, kutil.VerbUnchanged, None) w) /\
  (forall l mod_ w e omod cj mj patch,
     heap w !! l = Some e ->
     v1.read mod_ w = Returns omod w ->
     Marshal (Some e) = inl cj -> Marshal omod = inl mj ->
     CreateTwoWayMergePatch cj mj = inl patch ->
     patch <> [] -> patch <> [x7b; x7d] ->
     let ns := metav1.Namespace (core.ObjectMeta e) in
     let name := metav1.Name (core.ObjectMeta e) in
     let '((resp, perr), s') :=
       kubernetes.Patch c ns name types.StrategicMergePatchType patch
         (server w) in
     PatchEndpointsObject (Some l) mod_ w
     = Returns (received w resp, kutil.VerbPatched, perr)
         (after w (CallPatch ns name types.StrategicMergePatchType patch)
            s' resp)).
Proof.
  assert (Hspec : forall patch : bytes,
            v1.emptyPatch patch = true <->
            patch = [] \/ patch = [x7b; x7d]).
  { intros patch. rewrite emptyPatch_spec.
    split; (intros [H0 | Hb]; [left | right; exact Hb]).
    - now apply length_zero_iff_nil.
    - now subst. }
  split; [exact Hspec |]. split.
  - intros cur mod_ w ocur omod cj mj patch Hcur Hmod Hcj Hmj Hd Hempty.
    apply Hspec in Hempty.
    eapply PatchEndpointsObject_unchanged; eassumption.
  - intros l mod_ w e omod cj mj patch Hl Hmod Hcj Hmj Hd Hne Hnb.
    cbv zeta.
    destruct (kubernetes.Patch c (metav1.Namespace (core.ObjectMeta e))
                (metav1.Name (core.ObjectMeta e))
                types.StrategicMergePatchType patch (server w))
      as [[resp perr] s'] eqn:Hpatch.
    eapply PatchEndpointsObject_patches; try eassumption.
    destruct (v1.emptyPatch patch) eqn:Hempty; [|reflexivity].
    apply Hspec in Hempty. tauto.
Qed.

End EndpointsFacts.

(** ** The claims at work on the scripted client *)

Lemma absent_object_is_created_witness :
  exists out w',
    Demo.CreateOrPatchEndpoints Demo.meta
      (Demo.inPlace (Demo.setSubsets ["10.0.0.1"]))
      (Demo.world []
         [(None, Some Demo.notFound);
          (Some (Demo.web ["10.0.0.1"] "1"), None)])
    = Returns (out, kutil.VerbCreated, None) w' /\
    load w' out = Some (Demo.web ["10.0.0.1"] "1") /\
    server w' = [] /\
    calls w' =
      [CallGet "prod" "web";
       CallCreate "prod"
         (Some (Demo.setSubsets ["10.0.0.1"] (v1.bare Demo.meta)))].
Proof.
  exact (proj2 (absent_object_is_created Demo.Marshal
                  Demo.CreateTwoWayMergePatch Demo.scripted Demo.meta
                  (Demo.inPlace (Demo.setSubsets ["10.0.0.1"]))
                  (Demo.world []
                     [(None, Some Demo.notFound);
                      (Some (Demo.web ["10.0.0.1"] "1"), None)])
                  None (Some Demo.notFound)
                  [(Some (Demo.web ["10.0.0.1"] "1"), None)]
                  eq_refl eq_refl)).
Defined.

Lemma other_fetch_error_is_returned_witness :
  Demo.CreateOrPatchEndpoints Demo.meta
    (Demo.inPlace (Demo.setSubsets ["10.0.0.1"]))
    (Demo.world [] [(None, Some Demo.timeout);
                    (Some (Demo.web ["10.0.0.1"] "1"), None)])
  = Returns (None, kutil.VerbUnchanged, Some Demo.timeout)
      {| heap := [];
         server := [(Some (Demo.web ["10.0.0.1"] "1"), None)];
         calls := [CallGet "prod" "web"] |}.
Proof.
  exact (other_fetch_error_is_returned Demo.Marshal
           Demo.CreateTwoWayMergePatch Demo.scripted Demo.meta
           (Demo.inPlace (Demo.setSubsets ["10.0.0.1"]))
           (Demo.world [] [(None, Some Demo.timeout);
                           (Some (Demo.web ["10.0.0.1"] "1"), None)])
           None Demo.timeout
           [(Some (Demo.web ["10.0.0.1"] "1"), None)]
           eq_refl eq_refl).
Defined.

Lemma identical_object_is_unchanged_witness :
  Demo.PatchEndpointsObject (Some 0) (Some 1)
    (Demo.world [Demo.web ["10.0.0.1"] "7"; Demo.web ["10.0.0.1"] "7"] [])
  = Returns (Some 0, kutil.VerbUnchanged, None)
      (Demo.world [Demo.web ["10.0.0.1"] "7"; Demo.web ["10.0.0.1"] "7"]
         []) /\
  exists w',
    Demo.PatchEndpoints (Some 0)
      (Demo.inPlace (Demo.setSubsets ["10.0.0.1"]))
      (Demo.world [Demo.web ["10.0.0.1"] "7"] [])
    = Returns (Some 0, kutil.VerbUnchanged, None) w' /\
    load w' (Some 0) = Some (Demo.web ["10.0.0.1"] "7") /\
    server w' = [] /\ calls w' = [].
Proof.
  destruct (identical_object_is_unchanged Demo.Marshal
              Demo.CreateTwoWayMergePatch Demo.scripted) as [Hobj Hpatch].
  split.
  - apply (Hobj (Some 0) (Some 1)
             (Demo.world
                [Demo.web ["10.0.0.1"] "7"; Demo.web ["10.0.0.1"] "7"] [])
             (Some (Demo.web ["10.0.0.1"] "7"))
             (Some (Demo.web ["10.0.0.1"] "7"))
             (list_byte_of_string "web:10.0.0.1")
             (list_byte_of_string "web:10.0.0.1")
             (list_byte_of_string "{}")); reflexivity.
  - apply (Hpatch (Demo.inPlace (Demo.setSubsets ["10.0.0.1"]))
             (Demo.world [Demo.web ["10.0.0.1"] "7"] []) 0
             (Demo.web ["10.0.0.1"] "7")
             (list_byte_of_string "web:10.0.0.1")
             (list_byte_of_string "web:10.0.0.1")
             (list_byte_of_string "{}")); reflexivity.
Defined.

Lemma changed_object_is_patched_witness :
  exists out w',
    Demo.PatchEndpoints (Some 0)
      (Demo.inPlace (Demo.setSubsets ["10.0.0.2"]))
      (Demo.world [Demo.web ["10.0.0.1"] "7"]
         [(Some (Demo.web ["10.0.0.2"] "8"), None)])
    = Returns (out, kutil.VerbPatched, None) w' /\
    load w' out = Some (Demo.web ["10.0.0.2"] "8") /\
    server w' = [] /\
    calls w' =
      [CallPatch "prod" "web" types.StrategicMergePatchType
         (list_byte_of_string "web:10.0.0.2")].
Proof.
  apply (changed_object_is_patched Demo.Marshal
           Demo.CreateTwoWayMergePatch Demo.scripted
           (Demo.inPlace (Demo.setSubsets ["10.0.0.2"]))
           (Demo.world [Demo.web ["10.0.0.1"] "7"]
              [(Some (Demo.web ["10.0.0.2"] "8"), None)])
           0 (Demo.web ["10.0.0.1"] "7")
           (list_byte_of_string "web:10.0.0.1")
           (list_byte_of_string "web:10.0.0.2")
           (list_byte_of_string "web:10.0.0.2")
           (Some (Demo.web ["10.0.0.2"] "8")) []); reflexivity.
Defined.

Lemma marshal_or_diff_error_is_returned_witness :
  Demo.PatchEndpointsObject (Some 0) (Some 1)
    (Demo.world [Demo.unname (Demo.web [] "7"); Demo.web [] "7"] [])
  = Returns (None, kutil.VerbUnchanged, Some (PlainError "json: no name"))
      (Demo.world [Demo.unname (Demo.web [] "7"); Demo.web [] "7"] []) /\
  Demo.PatchEndpointsObject (Some 1) (Some 0)
    (Demo.world [Demo.unname (Demo.web [] "7"); Demo.web [] "7"] [])
  = Returns (None, kutil.VerbUnchanged, Some (PlainError "json: no name"))
      (Demo.world [Demo.unname (Demo.web [] "7"); Demo.web [] "7"] []) /\
  Demo.PatchEndpointsObject (Some 0) None (Demo.world [Demo.web [] "7"] [])
  = Returns (None, kutil.VerbUnchanged,
             Some (PlainError "patch: no target"))
      (Demo.world [Demo.web [] "7"] []).
Proof.
  split; [|split].
  - apply (marshal_or_diff_error_is_returned Demo.Marshal
             Demo.CreateTwoWayMergePatch Demo.scripted (Some 0) (Some 1)
             (Demo.world [Demo.unname (Demo.web [] "7"); Demo.web [] "7"]
                [])
             (Some (Demo.unname (Demo.web [] "7")))); [reflexivity|].
    left. reflexivity.
  - apply (marshal_or_diff_error_is_returned Demo.Marshal
             Demo.CreateTwoWayMergePatch Demo.scripted (Some 1) (Some 0)
             (Demo.world [Demo.unname (Demo.web [] "7"); Demo.web [] "7"]
                [])
             (Some (Demo.web [] "7"))); [reflexivity|].
    right. left.
    exists (list_byte_of_string "web:"),
           (Some (Demo.unname (Demo.web [] "7"))).
    repeat split.
  - apply (marshal_or_diff_error_is_returned Demo.Marshal
             Demo.CreateTwoWayMergePatch Demo.scripted (Some 0) None
             (Demo.world [Demo.web [] "7"] [])
             (Some (Demo.web [] "7"))); [reflexivity|].
    right. right.
    exists (list_byte_of_string "web:"), None,
           (list_byte_of_string "null").
    repeat split.
Defined.

Lemma transform_runs_on_a_copy_witness :
  exists r w',
    Demo.PatchEndpoints (Some 0)
      (Demo.inPlace (Demo.setSubsets ["10.0.0.2"]))
      (Demo.world [Demo.web ["10.0.0.1"] "7"]
         [(Some (Demo.web ["10.0.0.2"] "8"), None)])
    = Returns r w' /\
    load w' (Some 0) = Some (Demo.web ["10.0.0.1"] "7") /\
    (forall l0 e0,
       [Demo.web ["10.0.0.1"] "7"] !! l0 = Some e0 ->
       heap w' !! l0 = Some e0).
Proof.
  exact (proj2 (proj2 (proj2
           (transform_runs_on_a_copy Demo.Marshal
              Demo.CreateTwoWayMergePatch Demo.scripted
              (Demo.inPlace (Demo.setSubsets ["10.0.0.2"]))
              (Demo.world [Demo.web ["10.0.0.1"] "7"]
                 [(Some (Demo.web ["10.0.0.2"] "8"), None)])
              0 (Demo.web ["10.0.0.1"] "7") eq_refl)))).
Defined.

Lemma outcome_names_the_attempt_witness :
  (exists out verb w',
     Demo.CreateOrPatchEndpoints Demo.meta
       (Demo.inPlace (Demo.setSubsets ["10.0.0.1"]))
       (Demo.world [] [(None, Some Demo.notFound);
                       (None, Some Demo.timeout)])
     = Returns (out, verb, Some Demo.timeout) w' /\
     verb = kutil.VerbCreated /\ verb <> kutil.VerbUnchanged) /\
  (exists out verb w',
     Demo.PatchEndpointsObject (Some 0) (Some 1)
       (Demo.world [Demo.web ["10.0.0.1"] "7"; Demo.web ["10.0.0.2"] "7"]
          [(None, Some Demo.timeout)])
     = Returns (out, verb, Some Demo.timeout) w' /\
     verb = kutil.VerbPatched /\ verb <> kutil.VerbUnchanged).
Proof.
  destruct (outcome_names_the_attempt Demo.Marshal
              Demo.CreateTwoWayMergePatch Demo.scripted)
    as [Hcreate Hpatch].
  split.
  - apply (Hcreate Demo.meta
             (Demo.inPlace (Demo.setSubsets ["10.0.0.1"]))
             (Demo.world [] [(None, Some Demo.notFound);
                             (None, Some Demo.timeout)])
             None (Some Demo.notFound) [(None, Some Demo.timeout)]
             None Demo.timeout []); reflexivity.
  - apply (Hpatch 0 (Some 1)
             (Demo.world
                [Demo.web ["10.0.0.1"] "7"; Demo.web ["10.0.0.2"] "7"]
                [(None, Some Demo.timeout)])
             (Demo.web ["10.0.0.1"] "7")
             (Some (Demo.web ["10.0.0.2"] "7"))
             (list_byte_of_string "web:10.0.0.1")
             (list_byte_of_string "web:10.0.0.2")
             (list_byte_of_string "web:10.0.0.2")
             None Demo.timeout []); reflexivity.
Defined.

Lemma empty_patch_is_none_or_braces_witness :
  v1.emptyPatch (list_byte_of_string "{}") = true /\
  v1.PatchEndpointsObject Demo.Marshal (fun _ _ => inl []) Demo.scripted
    (Some 0) None (Demo.world [Demo.web ["10.0.0.1"] "7"] [])
  = Returns (Some 0, kutil.VerbUnchanged, None)
      (Demo.world [Demo.web ["10.0.0.1"] "7"] []) /\
  Demo.PatchEndpointsObject (Some 0) (Some 1)
    (Demo.world [Demo.web ["10.0.0.1"] "7"; Demo.web ["10.0.0.1"] "9"] [])
  = Returns (Some 0, kutil.VerbUnchanged, None)
      (Demo.world [Demo.web ["10.0.0.1"] "7"; Demo.web ["10.0.0.1"] "9"]
         []) /\
  Demo.PatchEndpointsObject (Some 0) (Some 1)
    (Demo.world [Demo.web ["10.0.0.1"] "7"; Demo.web [] "7"]
       [(Some (Demo.web [] "8"), None)])
  = Returns (Some 2, kutil.VerbPatched, None)
      {| heap := [Demo.web ["10.0.0.1"] "7"; Demo.web [] "7";
                  Demo.web [] "8"];
         server := [];
         calls := [CallPatch "prod" "web" types.StrategicMergePatchType
                     (list_byte_of_string "web:")] |}.
Proof.
  split; [|split; [|split]].
  - apply (proj1 (empty_patch_is_none_or_braces Demo.Marshal
                    Demo.CreateTwoWayMergePatch Demo.scripted)).
    right. reflexivity.
  - apply (proj1 (proj2 (empty_patch_is_none_or_braces Demo.Marshal
                           (fun _ _ => inl []) Demo.scripted))
             (Some 0) None
             (Demo.world [Demo.web ["10.0.0.1"] "7"] [])
             (Some (Demo.web ["10.0.0.1"] "7")) None
             (list_byte_of_string "web:10.0.0.1")
             (list_byte_of_string "null") []);
      try reflexivity.
    left. reflexivity.
  - apply (proj1 (proj2 (empty_patch_is_none_or_braces Demo.Marshal
                           Demo.CreateTwoWayMergePatch Demo.scripted))
             (Some 0) (Some 1)
             (Demo.world
                [Demo.web ["10.0.0.1"] "7"; Demo.web ["10.0.0.1"] "9"] [])
             (Some (Demo.web ["10.0.0.1"] "7"))
             (Some (Demo.web ["10.0.0.1"] "9"))
             (list_byte_of_string "web:10.0.0.1")
             (list_byte_of_string "web:10.0.0.1")
             (list_byte_of_string "{}"));
      try reflexivity.
    right. reflexivity.
  - apply (proj2 (proj2 (empty_patch_is_none_or_braces Demo.Marshal
                           Demo.CreateTwoWayMergePatch Demo.scripted))
             0 (Some 1)
             (Demo.world [Demo.web ["10.0.0.1"] "7"; Demo.web [] "7"]
                [(Some (Demo.web [] "8"), None)])
             (Demo.web ["10.0.0.1"] "7") (Some (Demo.web [] "7"))
             (list_byte_of_string "web:10.0.0.1")
             (list_byte_of_string "web:")
             (list_byte_of_string "web:"));
      try reflexivity; discriminate.
Defined.

(** ** Where two claims go too far *)

(** C4 as stated fails: the object returned with outcome Patched is
    whatever the client answered, checked against nothing.  Here the
    transform sets the address 10.0.0.2 and the patch carrying it is
    sent; a client that answers with no object makes the helper return
    nil with outcome Patched and a nil error, and one that answers with
    the stale object makes it return that object, whose subsets are not
    those the transform set. *)
Lemma patched_answer_need_not_reflect_the_transform :
  transformed (Demo.inPlace (Demo.setSubsets ["10.0.0.2"]))
    (Demo.web ["10.0.0.1"] "7")
  = Some (Demo.web ["10.0.0.2"] "7") /\
  Demo.PatchEndpoints (Some 0)
    (Demo.inPlace (Demo.setSubsets ["10.0.0.2"]))
    (Demo.world [Demo.web ["10.0.0.1"] "7"] [(None, None)])
  = Returns (None, kutil.VerbPatched, None)
      {| heap := [Demo.web ["10.0.0.1"] "7"; Demo.web ["10.0.0.2"] "7"];
         server := [];
         calls := [CallPatch "prod" "web" types.StrategicMergePatchType
                     (list_byte_of_string "web:10.0.0.2")] |} /\
  Demo.PatchEndpoints (Some 0)
    (Demo.inPlace (Demo.setSubsets ["10.0.0.2"]))
    (Demo.world [Demo.web ["10.0.0.1"] "7"]
       [(Some (Demo.web ["10.0.0.1"] "8"), None)])
  = Returns (Some 2, kutil.VerbPatched, None)
      {| heap := [Demo.web ["10.0.0.1"] "7"; Demo.web ["10.0.0.2"] "7";
                  Demo.web ["10.0.0.1"] "8"];
         server := [];
         calls := [CallPatch "prod" "web" types.StrategicMergePatchType
                     (list_byte_of_string "web:10.0.0.2")] |} /\
  core.Subsets (Demo.web ["10.0.0.1"] "8")
  <> core.Subsets (Demo.web ["10.0.0.2"] "7").
Proof.
  split; [reflexivity|].
  split; [vm_compute; reflexivity|].
  split; [vm_compute; reflexivity|].
  discriminate.
Qed.

(** C10 as stated fails in its last part: with a nil [cur] a patch that
    is neither empty nor "{}" leads to no patch call.  The run panics
    on the namespace and name read through [cur]; at the panic the call
    log is still empty and the answer the server had ready is still
    waiting. *)
Lemma nonempty_patch_for_nil_current_is_not_sent :
  Demo.CreateTwoWayMergePatch (list_byte_of_string "null")
    (list_byte_of_string "web:10.0.0.1")
  = inl (list_byte_of_string "web:10.0.0.1") /\
  v1.emptyPatch (list_byte_of_string "web:10.0.0.1") = false /\
  Demo.PatchEndpointsObject None (Some 0)
    (Demo.world [Demo.web ["10.0.0.1"] "7"]
       [(Some (Demo.web ["10.0.0.1"] "8"), None)])
  = Panics {| heap := [Demo.web ["10.0.0.1"] "7"];
              server := [(Some (Demo.web ["10.0.0.1"] "8"), None)];
              calls := [] |}.
Proof.
  split; [vm_compute; reflexivity|].
  split; [vm_compute; reflexivity|].
  vm_compute. reflexivity.
Qed.

(** * Further properties of the create-or-patch helper *)

Section EndpointsRuns.

Context {S : Type}.
Variable Marshal : option core.Endpoints -> result.
Variable CreateTwoWayMergePatch : bytes -> bytes -> result.
Variable c : kubernetes.Interface S.

Local Abbreviation PatchEndpointsObject :=
  (v1.PatchEndpointsObject Marshal CreateTwoWayMergePatch c).
Local Abbreviation PatchEndpoints :=
  (v1.PatchEndpoints Marshal CreateTwoWayMergePatch c).
Local Abbreviation CreateOrPatchEndpoints :=
  (v1.CreateOrPatchEndpoints Marshal CreateTwoWayMergePatch c).

Implicit Types (w : World S) (l : loc) (e : core.Endpoints) (p cur : ptr).

(** *** What any run leaves behind *)

Lemma bind_inv {A B} (m : Go S A) (k : A -> Go S B) w b w' :
  bind m k w = Returns b w' ->
  exists a w1, m w = Returns a w1 /\ k a w1 = Returns b w'.
Proof.
  unfold bind. destruct (m w) as [a w1|]; [|discriminate].
  intros Hk. now exists a, w1.
Qed.

Lemma read_inv p w o w' :
  v1.read p w = Returns o w' -> w' = w /\ load w p = o.
Proof.
  unfold v1.read. destruct p as [l|]; cbn.
  - destruct (heap w !! l) as [e|]; [|discriminate].
    intros [= <- <-]. now split.
  - intros [= <- <-]. now split.
Qed.

Lemma read_received w call s' resp :
  v1.read (received w resp) (after w call s' resp)
  = Returns resp (after w call s' resp).
Proof.
  destruct resp as [e|]; [|reflexivity].
  apply read_live. cbn. now apply list_lookup_middle.
Qed.

(** A transform call that returns leaves the server and the call log
    alone, keeps every object but the one it was handed, and hands back
    a pointer that can be read. *)
Lemma call_inv (t : Transform) p w m w' :
  v1.call t p w = Returns m w' ->
  server w' = server w /\ calls w' = calls w /\
  (forall l0 e0, Some l0 <> p -> heap w !! l0 = Some e0 ->
                 heap w' !! l0 = Some e0) /\
  exists om, v1.read m w' = Returns om w'.
Proof.
  destruct p as [l|]; cbn.
  - intros Hcall. apply bind_inv in Hcall as (e & w1 & Hderef & Hrest).
    apply bind_inv in Hderef as (o & w2 & Hread & Hsome).
    apply read_inv in Hread as [-> Hload]. cbn in Hload.
    destruct o as [e1|]; [|discriminate]. injection Hsome as <- <-.
    destruct (call_live t w l e1 Hload)
      as (m1 & w1 & Hcall & Hread & Hsrv & Hcalls & _ & Hframe).
    assert (Heq : v1.call t (Some l) w = Returns m w').
    { unfold v1.call.
      rewrite (bind_Returns _ _ _ _ _ (deref_live _ _ _ Hload)).
      exact Hrest. }
    rewrite Hcall in Heq. injection Heq as <- <-.
    repeat split; trivial.
    + intros l0 e0 Hne. apply Hframe. congruence.
    + now exists (transformed t e1).
  - destruct (onNil t) as [e|]; intros [= <- <-]; cbn.
    + repeat split; trivial.
      * intros l0 e0 _ H0. now apply lookup_app_l_Some.
      * exists (Some e). unfold v1.read. cbn.
        now rewrite list_lookup_middle.
    + repeat split; trivial. now exists None.
Qed.

Lemma DeepCopy_inv p w q w' :
  v1.DeepCopy p w = Returns q w' ->
  server w' = server w /\ calls w' = calls w /\
  (forall l0 e0, heap w !! l0 = Some e0 ->
                 heap w' !! l0 = Some e0 /\ Some l0 <> q) /\
  load w' q = load w p.
Proof.
  intros Hcopy. apply bind_inv in Hcopy as (o & w1 & Hread & Hrest).
  apply read_inv in Hread as [-> Hload]. destruct o as [e|].
  - injection Hrest as <- <-. cbn.
    split; [reflexivity|]. split; [reflexivity|]. split.
    + intros l0 e0 H0. split; [now apply lookup_app_l_Some|].
      apply lookup_lt_Some in H0. intros [= ->]. lia.
    + rewrite Hload. now apply list_lookup_middle.
  - injection Hrest as <- <-.
    split; [reflexivity|]. split; [reflexivity|]. split.
    + intros l0 e0 H0. now split.
    + now symmetry.
Qed.

Lemma request_inv call f w r w' :
  v1.request call f w = Returns r w' ->
  exists resp, f (server w) = ((resp, snd r), server w') /\
    fst r = received w resp /\ w' = after w call (server w') resp.
Proof.
  destruct (f (server w)) as [[resp er] s'] eqn:Hf.
  rewrite (request_spec _ _ _ _ _ _ Hf). intros [= <- <-].
  exists resp. now repeat split.
Qed.

(** Every way [PatchEndpointsObject] can return. *)
Lemma PatchEndpointsObject_inv cur mod_ w out verb rerr w' :
  PatchEndpointsObject cur mod_ w = Returns (out, verb, rerr) w' ->
  (verb = kutil.VerbUnchanged /\ w' = w /\
   ((rerr = None /\ out = cur) \/ (rerr <> None /\ out = None))) \/
  (verb = kutil.VerbPatched /\
   exists e cj mj patch resp,
     load w cur = Some e /\
     Marshal (Some e) = inl cj /\ Marshal (load w mod_) = inl mj /\
     CreateTwoWayMergePatch cj mj = inl patch /\
     v1.emptyPatch patch = false /\
     kubernetes.Patch c (metav1.Namespace (core.ObjectMeta e))
       (metav1.Name (core.ObjectMeta e)) types.StrategicMergePatchType
       patch (server w) = ((resp, rerr), server w') /\
     out = received w resp /\
     w' = after w
            (CallPatch (metav1.Namespace (core.ObjectMeta e))
               (metav1.Name (core.ObjectMeta e))
               types.StrategicMergePatchType patch)
            (server w') resp).
Proof.
  unfold v1.PatchEndpointsObject. intros Hrun.
  apply bind_inv in Hrun as (ocur & w1 & Hcur & Hrun).
  apply read_inv in Hcur as [-> Hcur].
  destruct (Marshal ocur) as [cj|ec] eqn:Hcj.
  2:{ injection Hrun as <- <- <- <-. left. repeat split. now right. }
  apply bind_inv in Hrun as (omod & w1 & Hmod & Hrun).
  apply read_inv in Hmod as [-> Hmod].
  destruct (Marshal omod) as [mj|em] eqn:Hmj.
  2:{ injection Hrun as <- <- <- <-. left. repeat split. now right. }
  destruct (CreateTwoWayMergePatch cj mj) as [patch|ed] eqn:Hd.
  2:{ injection Hrun as <- <- <- <-. left. repeat split. now right. }
  destruct (v1.emptyPatch patch) eqn:Hempty.
  { injection Hrun as <- <- <- <-. left. repeat split. now left. }
  apply bind_inv in Hrun as (e & w1 & Hderef & Hrun).
  apply bind_inv in Hderef as (o & w2 & Hread & Hsome).
  apply read_inv in Hread as [-> Hload].
  destruct o as [e1|]; [|discriminate]. injection Hsome as <- <-.
  assert (ocur = Some e1) as -> by congruence.
  cbn zeta in Hrun.
  apply bind_inv in Hrun as ([out1 err1] & w1 & Hreq & Hret).
  injection Hret as <- <- <- <-.
  unfold v1.Endpoints_Patch in Hreq.
  apply request_inv in Hreq as (resp & Hpatch & Hout & Hw). cbn in Hpatch, Hout.
  right. split; [reflexivity|].
  exists e1, cj, mj, patch, resp. rewrite Hmod. now repeat split.
Qed.

(** [PatchEndpoints] is [PatchEndpointsObject] on what the transform
    hands back for a copy of [cur], or for nil when [cur] is nil. *)
Lemma PatchEndpoints_inv cur (t : Transform) w r w' :
  PatchEndpoints cur t w = Returns r w' ->
  exists m w1,
    PatchEndpointsObject cur m w1 = Returns r w' /\
    server w1 = server w /\ calls w1 = calls w /\
    (forall l0 e0, heap w !! l0 = Some e0 -> heap w1 !! l0 = Some e0) /\
    load w1 m = match load w cur with
                | Some e => transformed t e
                | None => onNil t
                end.
Proof.
  unfold v1.PatchEndpoints. intros Hrun.
  apply bind_inv in Hrun as (q & w0 & Hcopy & Hrun).
  apply bind_inv in Hrun as (m & w1 & Hcall & Hrun).
  exists m, w1. split; [exact Hrun|].
  destruct cur as [l|].
  - apply bind_inv in Hcopy as (o & w2 & Hread & Hcopy).
    unfold v1.read in Hread.
    destruct (heap w !! l) as [e|] eqn:Hload; [|discriminate].
    injection Hread as <- <-.
    injection Hcopy as <- <-.
    assert (Hcopy : (heap w ++ [e]) !! List.length (heap w) = Some e)
      by now apply list_lookup_middle.
    destruct (call_live t {| heap := heap w ++ [e]; server := server w;
                             calls := calls w |} _ _ Hcopy)
      as (m2 & w2 & Hcall2 & Hread2 & Hsrv2 & Hcalls2 & _ & Hframe2).
    assert (Heq : Returns m2 w2 = Returns m w1)
      by (etransitivity; [symmetry; exact Hcall2 | exact Hcall]).
    injection Heq as -> ->.
    split; [exact Hsrv2|]. split; [exact Hcalls2|]. split.
    + intros l0 e0 H0. apply Hframe2.
      * apply lookup_lt_Some in H0. lia.
      * cbn. now apply lookup_app_l_Some.
    + cbn. rewrite Hload.
      apply read_inv in Hread2 as [_ Hread2]. exact Hread2.
  - injection Hcopy as <- <-. cbn in Hcall.
    destruct (onNil t) as [e|] eqn:Hnil; injection Hcall as <- <-; cbn.
    + repeat split; trivial.
      * intros l0 e0 H0. now apply lookup_app_l_Some.
      * now apply list_lookup_middle.
    + now repeat split.
Qed.

Lemma fetch_error_returns (meta : metav1.ObjectMeta)
    (t : Transform) w o (ge : error) s1 :
  kubernetes.Get c (metav1.Namespace meta) (metav1.Name meta) (server w)
  = ((o, Some ge), s1) ->
  kerr.IsNotFound (Some ge) = false ->
  CreateOrPatchEndpoints meta t w
  = Returns (None, kutil.VerbUnchanged, Some ge)
      (after w (CallGet (metav1.Namespace meta) (metav1.Name meta)) s1 o).
Proof.
  intros Hget Hnf. unfold v1.CreateOrPatchEndpoints, v1.Endpoints_Get.
  rewrite (bind_Returns _ _ _ _ _ (request_spec _ _ _ _ _ _ Hget)).
  now rewrite Hnf.
Qed.

(** With the fetch answered without error, the helper is
    [PatchEndpoints] on the pointer to the answer. *)
Lemma fetch_ok_composes (meta : metav1.ObjectMeta) (t : Transform) w o s1 :
  kubernetes.Get c (metav1.Namespace meta) (metav1.Name meta) (server w)
  = ((o, None), s1) ->
  CreateOrPatchEndpoints meta t w
  = PatchEndpoints (received w o) t
      (after w (CallGet (metav1.Namespace meta) (metav1.Name meta)) s1 o).
Proof.
  intros Hget. unfold v1.CreateOrPatchEndpoints, v1.Endpoints_Get.
  now rewrite (bind_Returns _ _ _ _ _ (request_spec _ _ _ _ _ _ Hget)).
Qed.

(** Every way [CreateOrPatchEndpoints] can return. *)
Lemma CreateOrPatchEndpoints_inv (meta : metav1.ObjectMeta) (t : Transform)
    w out verb rerr w' :
  CreateOrPatchEndpoints meta t w = Returns (out, verb, rerr) w' ->
  let ns := metav1.Namespace meta in
  let get := CallGet ns (metav1.Name meta) in
  exists o gerr s1,
    kubernetes.Get c ns (metav1.Name meta) (server w) = ((o, gerr), s1) /\
    ((kerr.IsNotFound gerr = true /\ verb = kutil.VerbCreated /\
      calls w' = calls w ++
        [get; CallCreate ns (transformed t (v1.bare meta))] /\
      kubernetes.Create c ns (transformed t (v1.bare meta)) s1
      = ((load w' out, rerr), server w')) \/
     (kerr.IsNotFound gerr = false /\ verb = kutil.VerbUnchanged /\
      calls w' = calls w ++ [get] /\ server w' = s1 /\
      ((gerr <> None /\ rerr = gerr /\ out = None) \/
       (gerr = None /\ rerr = None /\ out = received w o) \/
       (gerr = None /\ rerr <> None /\ out = None))) \/
     (gerr = None /\ verb = kutil.VerbPatched /\
      exists e patch,
        o = Some e /\ v1.emptyPatch patch = false /\
        calls w' = calls w ++
          [get; CallPatch (metav1.Namespace (core.ObjectMeta e))
                  (metav1.Name (core.ObjectMeta e))
                  types.StrategicMergePatchType patch] /\
        kubernetes.Patch c (metav1.Namespace (core.ObjectMeta e))
          (metav1.Name (core.ObjectMeta e)) types.StrategicMergePatchType
          patch s1 = ((load w' out, rerr), server w'))).
Proof.
  intros Hrun ns get.
  destruct (kubernetes.Get c ns (metav1.Name meta) (server w))
    as [[o gerr] s1] eqn:Hget.
  exists o, gerr, s1. split; [reflexivity|].
  destruct (kerr.IsNotFound gerr) eqn:Hnf.
  - destruct (kubernetes.Create c ns (transformed t (v1.bare meta)) s1)
      as [[resp cerr] s2] eqn:Hcreate.
    destruct (create_path Marshal CreateTwoWayMergePatch c meta t w
                _ _ _ _ _ _ Hget Hnf Hcreate)
      as (out1 & w1 & Hrun1 & Hload & Hsrv & Hcalls & _).
    rewrite Hrun1 in Hrun. injection Hrun as <- <- <- <-.
    left. rewrite Hload, Hsrv. now repeat split.
  - destruct gerr as [ge|].
    + pose proof (fetch_error_returns meta t w o ge s1 Hget Hnf)
        as Hrun1.
      rewrite Hrun1 in Hrun. injection Hrun as <- <- <- <-.
      right. left. repeat split. left. now repeat split.
    + rewrite (fetch_ok_composes meta t w o s1 Hget) in Hrun.
      apply PatchEndpoints_inv in Hrun
        as (m & w1 & Hobj & Hsrv & Hcalls & Hframe & Hm).
      apply PatchEndpointsObject_inv in Hobj
        as [(-> & -> & Hres)
           | (-> & e & cj & mj & patch & resp & Hcur & _ & _ & _ &
              Hempty & Hpatch & -> & ->)].
      * right. left.
        split; [reflexivity|]. split; [reflexivity|].
        split; [now rewrite Hcalls|]. split; [now rewrite Hsrv|].
        right. destruct Hres as [[-> ->] | [Hne ->]]; [left | right];
          now repeat split.
      * right. right. split; [reflexivity|]. split; [reflexivity|].
        exists e, patch.
        assert (Hfetched : o = Some e).
        { pose proof (Hframe (List.length (heap w))) as Hf.
          destruct o as [e1|]; cbn in Hcur; [|discriminate].
          rewrite (Hf e1) in Hcur by (cbn; now apply list_lookup_middle).
          congruence. }
        split; [exact Hfetched|]. split; [exact Hempty|]. split.
        -- cbn. rewrite Hcalls. cbn. now rewrite <- app_assoc.
        -- rewrite load_received. rewrite Hsrv in Hpatch. exact Hpatch.
Qed.

(** *** End to end through the fetch *)

(** X1.  When the fetch answers with an object and the transform leaves
    it without a patch to send, [CreateOrPatchEndpoints] returns the
    pointer to the fetched object, still holding what was fetched, with
    outcome Unchanged and a nil error; the fetch is the only request and
    the server is as the fetch left it. *)
Theorem fetched_and_identical_sends_only_the_fetch
    (meta : metav1.ObjectMeta) (t : Transform) w e s1 cj mj patch :
  kubernetes.Get c (metav1.Namespace meta) (metav1.Name meta) (server w)
  = ((Some e, None), s1) ->
  Marshal (Some e) = inl cj -> Marshal (transformed t e) = inl mj ->
  CreateTwoWayMergePatch cj mj = inl patch ->
  v1.emptyPatch patch = true ->
  exists w',
    CreateOrPatchEndpoints meta t w
    = Returns (Some (List.length (heap w)), kutil.VerbUnchanged, None) w' /\
    load w' (Some (List.length (heap w))) = Some e /\
    server w' = s1 /\
    calls w' = calls w ++
      [CallGet (metav1.Namespace meta) (metav1.Name meta)].
Proof.
  intros Hget Hcj Hmj Hd Hempty.
  rewrite (fetch_ok_composes meta t w (Some e) s1 Hget).
  set (w0 := after w _ s1 (Some e)).
  assert (Hl : heap w0 !! List.length (heap w) = Some e)
    by (cbn; now apply list_lookup_middle).
  destruct (PatchEndpoints_steps Marshal CreateTwoWayMergePatch c t w0
              (List.length (heap w)) e Hl)
    as (m & w1 & Hrun & Hread & Hsrv & Hcalls & Hframe).
  exists w1. cbn [received]. split.
  - etransitivity; [exact Hrun|].
    apply (PatchEndpointsObject_unchanged Marshal CreateTwoWayMergePatch c
             (Some (List.length (heap w))) m w1 (Some e) (transformed t e)
             cj mj patch); trivial.
    apply read_live. now apply Hframe.
  - split; [cbn; now apply Hframe|]. split; [exact Hsrv | exact Hcalls].
Qed.

(** X2.  When the fetch answers with an object and the transform gives a
    patch to send, [CreateOrPatchEndpoints] sends exactly the fetch and
    then one strategic-merge patch, to the server as the fetch left it.
    The patch request is addressed by the namespace and name of the
    fetched object, not by the metadata argument and not by what the
    transform made of them.  The helper returns the server's answer and
    the error of the patch with outcome Patched. *)
Theorem fetched_and_changed_is_patched_under_its_own_name
    (meta : metav1.ObjectMeta) (t : Transform) w e s1 cj mj patch
    resp perr s2 :
  kubernetes.Get c (metav1.Namespace meta) (metav1.Name meta) (server w)
  = ((Some e, None), s1) ->
  Marshal (Some e) = inl cj -> Marshal (transformed t e) = inl mj ->
  CreateTwoWayMergePatch cj mj = inl patch ->
  v1.emptyPatch patch = false ->
  kubernetes.Patch c (metav1.Namespace (core.ObjectMeta e))
    (metav1.Name (core.ObjectMeta e)) types.StrategicMergePatchType patch
    s1 = ((resp, perr), s2) ->
  exists out w',
    CreateOrPatchEndpoints meta t w
    = Returns (out, kutil.VerbPatched, perr) w' /\
    load w' out = resp /\
    server w' = s2 /\
    calls w' = calls w ++
      [CallGet (metav1.Namespace meta) (metav1.Name meta);
       CallPatch (metav1.Namespace (core.ObjectMeta e))
         (metav1.Name (core.ObjectMeta e))
         types.StrategicMergePatchType patch].
Proof.
  intros Hget Hcj Hmj Hd Hempty Hpatch.
  rewrite (fetch_ok_composes meta t w (Some e) s1 Hget).
  set (w0 := after w _ s1 (Some e)).
  assert (Hl : heap w0 !! List.length (heap w) = Some e)
    by (cbn; now apply list_lookup_middle).
  destruct (PatchEndpoints_steps Marshal CreateTwoWayMergePatch c t w0
              (List.length (heap w)) e Hl)
    as (m & w1 & Hrun & Hread & Hsrv & Hcalls & Hframe).
  assert (Hpatch1 : kubernetes.Patch c (metav1.Namespace (core.ObjectMeta e))
                      (metav1.Name (core.ObjectMeta e))
                      types.StrategicMergePatchType patch (server w1)
                    = ((resp, perr), s2)) by now rewrite Hsrv.
  pose proof (PatchEndpointsObject_patches Marshal CreateTwoWayMergePatch c
                _ m w1 e _ _ _ _ _ _ _
                (Hframe _ _ Hl) Hread Hcj Hmj Hd Hempty Hpatch1) as Hobj.
  eexists _, _. cbn [received].
  split; [etransitivity; [exact Hrun | exact Hobj]|].
  split; [apply load_received|]. split; [reflexivity|].
  cbn. rewrite Hcalls. cbn. now rewrite <- app_assoc.
Qed.

(** *** What the outcome says about the requests *)

(** X3.  Whenever [CreateOrPatchEndpoints] returns, the requests it sent
    are the fetch followed by at most one write, and the outcome names
    that write: Created for one create request carrying the transformed
    new object, Patched for one strategic-merge patch request with a
    patch that is not empty, Unchanged for no write at all. *)
Theorem outcome_tells_the_requests (meta : metav1.ObjectMeta)
    (t : Transform) w out verb rerr w' :
  CreateOrPatchEndpoints meta t w = Returns (out, verb, rerr) w' ->
  let ns := metav1.Namespace meta in
  let get := CallGet ns (metav1.Name meta) in
  (verb = kutil.VerbCreated /\
   calls w' = calls w ++
     [get; CallCreate ns (transformed t (v1.bare meta))]) \/
  (verb = kutil.VerbPatched /\
   exists ns' name' patch,
     v1.emptyPatch patch = false /\
     calls w' = calls w ++
       [get; CallPatch ns' name' types.StrategicMergePatchType patch]) \/
  (verb = kutil.VerbUnchanged /\ calls w' = calls w ++ [get]).
Proof.
  intros Hrun ns get.
  destruct (CreateOrPatchEndpoints_inv meta t w out verb rerr w' Hrun)
    as (o & gerr & s1 & _ &
        [(_ & -> & Hcalls & _)
        | [(_ & -> & Hcalls & _)
          | (_ & -> & e & patch & _ & Hempty & Hcalls & _)]]).
  - left. now split.
  - right. right. now split.
  - right. left. split; [reflexivity|].
    exists (metav1.Namespace (core.ObjectMeta e)),
           (metav1.Name (core.ObjectMeta e)), patch.
    split; [exact Hempty | exact Hcalls].
Qed.

(** X5.  [CreateOrPatchEndpoints] returns, without a panic, whenever the
    client answers the fetch with an object or with an error, whatever
    the transform, the codec and the later answers of the server. *)
Theorem helper_returns_when_the_fetch_answers (meta : metav1.ObjectMeta)
    (t : Transform) w o gerr s1 :
  kubernetes.Get c (metav1.Namespace meta) (metav1.Name meta) (server w)
  = ((o, gerr), s1) ->
  o <> None \/ gerr <> None ->
  exists r w', CreateOrPatchEndpoints meta t w = Returns r w'.
Proof.
  intros Hget Hanswer.
  destruct (kerr.IsNotFound gerr) eqn:Hnf.
  - destruct (kubernetes.Create c (metav1.Namespace meta)
                (transformed t (v1.bare meta)) s1)
      as [[resp cerr] s2] eqn:Hcreate.
    destruct (create_path Marshal CreateTwoWayMergePatch c meta t w
                _ _ _ _ _ _ Hget Hnf Hcreate) as (out & w' & Hrun & _).
    eauto.
  - destruct gerr as [ge|].
    + rewrite (fetch_error_returns meta t w o ge s1 Hget Hnf). eauto.
    + destruct o as [e|]; [|destruct Hanswer; congruence].
      rewrite (fetch_ok_composes meta t w (Some e) s1 Hget).
      set (w0 := after w _ s1 (Some e)).
      assert (Hl : heap w0 !! List.length (heap w) = Some e)
        by (cbn; now apply list_lookup_middle).
      destruct (PatchEndpoints_steps Marshal CreateTwoWayMergePatch c t w0
                  (List.length (heap w)) e Hl)
        as (m & w1 & Hrun & Hread & _ & _ & Hframe).
      destruct (PatchEndpointsObject_frame Marshal CreateTwoWayMergePatch c
                  _ m w1 e _ (Hframe _ _ Hl) Hread)
        as (r & w' & Hobj & _).
      exists r, w'. cbn [received].
      etransitivity; [exact Hrun | exact Hobj].
Qed.

(** *** [PatchEndpointsObject] on its own *)

(** X6.  With a nil [cur] and a patch to send, [PatchEndpointsObject]
    panics before any request: the world at the panic is the world it
    started in, with the same call log and the same server state,
    because the patch branch reads the namespace and name through [cur]
    first.  So does [CreateOrPatchEndpoints] when the client answers the
    fetch with neither an object nor an error: at the panic the fetch is
    the only request sent and the server is as the fetch left it. *)
Theorem nil_current_with_a_patch_panics :
  (forall mod_ w omod cj mj patch,
     v1.read mod_ w = Returns omod w ->
     Marshal None = inl cj -> Marshal omod = inl mj ->
     CreateTwoWayMergePatch cj mj = inl patch ->
     v1.emptyPatch patch = false ->
     PatchEndpointsObject None mod_ w = Panics w) /\
  (forall (meta : metav1.ObjectMeta) (t : Transform) w s1 cj mj patch,
     kubernetes.Get c (metav1.Namespace meta) (metav1.Name meta) (server w)
     = ((None, None), s1) ->
     Marshal None = inl cj -> Marshal (onNil t) = inl mj ->
     CreateTwoWayMergePatch cj mj = inl patch ->
     v1.emptyPatch patch = false ->
     exists w',
       CreateOrPatchEndpoints meta t w = Panics w' /\
       server w' = s1 /\
       calls w' = calls w ++
         [CallGet (metav1.Namespace meta) (metav1.Name meta)]).
Proof.
  assert (Hobj : forall mod_ w omod cj mj patch,
            v1.read mod_ w = Returns omod w ->
            Marshal None = inl cj -> Marshal omod = inl mj ->
            CreateTwoWayMergePatch cj mj = inl patch ->
            v1.emptyPatch patch = false ->
            PatchEndpointsObject None mod_ w = Panics w).
  { intros mod_ w omod cj mj patch Hmod Hcj Hmj Hd Hempty.
    unfold v1.PatchEndpointsObject.
    rewrite (bind_Returns _ _ _ _ _ (read_nil w)), Hcj.
    now rewrite (bind_Returns _ _ _ _ _ Hmod), Hmj, Hd, Hempty. }
  split; [exact Hobj|].
  intros meta t w s1 cj mj patch Hget Hcj Hmj Hd Hempty.
  rewrite (fetch_ok_composes meta t w None s1 Hget).
  unfold v1.PatchEndpoints. cbn [received].
  set (w0 := after w _ s1 None).
  change (v1.DeepCopy None) with (@ret S ptr None).
  unfold bind at 1. unfold ret at 1. unfold v1.call.
  destruct (onNil t) as [e|].
  - rewrite (bind_Returns _ _ _ _ _ (alloc_spec w0 e)).
    exists {| heap := heap w0 ++ [e]; server := server w0;
              calls := calls w0 |}.
    split; [|split; reflexivity].
    apply (Hobj _ _ (Some e) cj mj patch); trivial.
    apply read_live. cbn. now apply list_lookup_middle.
  - unfold bind at 1. unfold ret at 1.
    exists w0. split; [|split; reflexivity].
    now apply (Hobj None w0 None cj mj patch).
Qed.

(** X7.  Whenever [PatchEndpointsObject] returns, its outcome is never
    Created, and it is Unchanged exactly when nothing happened: the
    world, heap, server and call log, is as before, and the pointer
    returned is [cur] when the error is nil and nil when it is not.
    Outcome Patched comes with one patch request, addressed by the
    namespace and name of [cur], and with no other change than the
    server's answer added to the heap. *)
Theorem unchanged_means_nothing_happened cur mod_ w out verb rerr w' :
  PatchEndpointsObject cur mod_ w = Returns (out, verb, rerr) w' ->
  verb <> kutil.VerbCreated /\
  (verb = kutil.VerbUnchanged <-> w' = w) /\
  (verb = kutil.VerbUnchanged ->
     (rerr = None /\ out = cur) \/ (rerr <> None /\ out = None)) /\
  (verb = kutil.VerbPatched ->
     exists e patch resp,
       load w cur = Some e /\
       out = received w resp /\
       w' = after w
              (CallPatch (metav1.Namespace (core.ObjectMeta e))
                 (metav1.Name (core.ObjectMeta e))
                 types.StrategicMergePatchType patch)
              (server w') resp).
Proof.
  intros Hrun.
  destruct (PatchEndpointsObject_inv cur mod_ w out verb rerr w' Hrun)
    as [(-> & -> & Hres)
       | (-> & e & cj & mj & patch & resp & Hcur & _ & _ & _ & _ & _ &
          Hout & Hw)].
  - split; [discriminate|]. split; [tauto|]. split; [tauto|]. discriminate.
  - split; [discriminate|]. split; [|split; [discriminate|]].
    + split; [discriminate|]. intros Heq. exfalso.
      rewrite Heq in Hw. apply (f_equal (fun x => List.length (calls x))) in Hw.
      cbn in Hw. rewrite length_app in Hw. cbn in Hw. lia.
    + intros _. now exists e, patch, resp.
Qed.

(** *** How the transform hands its result back *)

(** [PatchEndpointsObject] on a live [cur], computed from what the two
    pointers hold. *)
Lemma PatchEndpointsObject_run l mod_ w e omod :
  heap w !! l = Some e ->
  v1.read mod_ w = Returns omod w ->
  PatchEndpointsObject (Some l) mod_ w
  = match Marshal (Some e) with
    | inr er => Returns (None, kutil.VerbUnchanged, Some er) w
    | inl cj =>
        match Marshal omod with
        | inr er => Returns (None, kutil.VerbUnchanged, Some er) w
        | inl mj =>
            match CreateTwoWayMergePatch cj mj with
            | inr er => Returns (None, kutil.VerbUnchanged, Some er) w
            | inl patch =>
                if v1.emptyPatch patch then
                  Returns (Some l, kutil.VerbUnchanged, None) w
                else
                  let ns := metav1.Namespace (core.ObjectMeta e) in
                  let name := metav1.Name (core.ObjectMeta e) in
                  let '((resp, perr), s') :=
                    kubernetes.Patch c ns name
                      types.StrategicMergePatchType patch (server w) in
                  Returns (received w resp, kutil.VerbPatched, perr)
                    (after w
                       (CallPatch ns name types.StrategicMergePatchType
                          patch) s' resp)
            end
        end
    end.
Proof.
  intros Hl Hmod.
  destruct (Marshal (Some e)) as [cj|er] eqn:Hcj.
  2:{ unfold v1.PatchEndpointsObject.
      now rewrite (bind_Returns _ _ _ _ _ (read_live _ _ _ Hl)), Hcj. }
  destruct (Marshal omod) as [mj|er] eqn:Hmj.
  2:{ unfold v1.PatchEndpointsObject.
      rewrite (bind_Returns _ _ _ _ _ (read_live _ _ _ Hl)), Hcj.
      now rewrite (bind_Returns _ _ _ _ _ Hmod), Hmj. }
  destruct (CreateTwoWayMergePatch cj mj) as [patch|er] eqn:Hd.
  2:{ unfold v1.PatchEndpointsObject.
      rewrite (bind_Returns _ _ _ _ _ (read_live _ _ _ Hl)), Hcj.
      now rewrite (bind_Returns _ _ _ _ _ Hmod), Hmj, Hd. }
  destruct (v1.emptyPatch patch) eqn:Hempty.
  - apply (PatchEndpointsObject_unchanged Marshal CreateTwoWayMergePatch c
             (Some l) mod_ w (Some e) omod cj mj patch); trivial.
    now apply read_live.
  - cbv zeta.
    destruct (kubernetes.Patch c (metav1.Namespace (core.ObjectMeta e))
                (metav1.Name (core.ObjectMeta e))
                types.StrategicMergePatchType patch (server w))
      as [[resp perr] s'] eqn:Hpatch.
    now apply (PatchEndpointsObject_patches Marshal CreateTwoWayMergePatch c
                 l mod_ w e omod cj mj patch resp perr s').
Qed.

(** X8.  For a present object, what [PatchEndpoints] does depends on the
    transform only through the content of the object the transform hands
    back.  Two transforms that hand back the same content, one by
    rewriting its argument in place and one in a new object, or leaving
    different things behind in the argument, get the same outcome, the
    same error, the same requests, the same server state and the same
    answer. *)
Theorem only_the_handed_back_content_matters (t1 t2 : Transform) w l e :
  heap w !! l = Some e ->
  transformed t1 e = transformed t2 e ->
  exists out1 out2 verb rerr w1 w2,
    PatchEndpoints (Some l) t1 w = Returns (out1, verb, rerr) w1 /\
    PatchEndpoints (Some l) t2 w = Returns (out2, verb, rerr) w2 /\
    load w1 out1 = load w2 out2 /\
    server w1 = server w2 /\ calls w1 = calls w2.
Proof.
  intros Hl Hsame.
  destruct (PatchEndpoints_steps Marshal CreateTwoWayMergePatch c t1 w l e Hl)
    as (m1 & wa & Hrun1 & Hread1 & Hsrv1 & Hcalls1 & Hframe1).
  destruct (PatchEndpoints_steps Marshal CreateTwoWayMergePatch c t2 w l e Hl)
    as (m2 & wb & Hrun2 & Hread2 & Hsrv2 & Hcalls2 & Hframe2).
  rewrite Hrun1, Hrun2.
  rewrite (PatchEndpointsObject_run l m1 wa e _ (Hframe1 _ _ Hl) Hread1).
  rewrite (PatchEndpointsObject_run l m2 wb e _ (Hframe2 _ _ Hl) Hread2).
  rewrite <- Hsame, Hsrv1, Hsrv2.
  assert (Hla : load wa (Some l) = load wb (Some l))
    by (cbn; now rewrite (Hframe1 _ _ Hl), (Hframe2 _ _ Hl)).
  assert (Hsc : server wa = server wb /\ calls wa = calls wb)
    by (split; congruence).
  destruct (Marshal (Some e)) as [cj|er];
    [|now eexists _, _, _, _, _, _].
  destruct (Marshal (transformed t1 e)) as [mj|er];
    [|now eexists _, _, _, _, _, _].
  destruct (CreateTwoWayMergePatch cj mj) as [patch|er];
    [|now eexists _, _, _, _, _, _].
  destruct (v1.emptyPatch patch); [now eexists _, _, _, _, _, _|].
  cbv zeta.
  destruct (kubernetes.Patch c (metav1.Namespace (core.ObjectMeta e))
              (metav1.Name (core.ObjectMeta e))
              types.StrategicMergePatchType patch (server w))
    as [[resp perr] s'].
  eexists _, _, _, _, _, _. split; [reflexivity|]. split; [reflexivity|].
  rewrite !load_received. cbn. rewrite Hcalls1, Hcalls2. now repeat split.
Qed.

End EndpointsRuns.

(** ** The further properties at work on the scripted client *)

Lemma fetched_and_identical_sends_only_the_fetch_witness :
  exists w',
    Demo.CreateOrPatchEndpoints Demo.meta
      (Demo.inPlace (Demo.setSubsets ["10.0.0.1"]))
      (Demo.world [] [(Some (Demo.web ["10.0.0.1"] "7"), None)])
    = Returns (Some 0, kutil.VerbUnchanged, None) w' /\
    load w' (Some 0) = Some (Demo.web ["10.0.0.1"] "7") /\
    server w' = [] /\
    calls w' = [CallGet "prod" "web"].
Proof.
  apply (fetched_and_identical_sends_only_the_fetch Demo.Marshal
           Demo.CreateTwoWayMergePatch Demo.scripted Demo.meta
           (Demo.inPlace (Demo.setSubsets ["10.0.0.1"]))
           (Demo.world [] [(Some (Demo.web ["10.0.0.1"] "7"), None)])
           (Demo.web ["10.0.0.1"] "7") []
           (list_byte_of_string "web:10.0.0.1")
           (list_byte_of_string "web:10.0.0.1")
           (list_byte_of_string "{}")); reflexivity.
Defined.

Lemma fetched_and_changed_is_patched_under_its_own_name_witness :
  exists out w',
    Demo.CreateOrPatchEndpoints
      {| metav1.Name := "alias"; metav1.Namespace := "prod";
         metav1.ResourceVersion := ""; metav1.Labels := [] |}
      (Demo.inPlace (Demo.setSubsets ["10.0.0.2"]))
      (Demo.world []
         [(Some (Demo.web ["10.0.0.1"] "7"), None);
          (None, Some Demo.timeout)])
    = Returns (out, kutil.VerbPatched, Some Demo.timeout) w' /\
    load w' out = None /\
    server w' = [] /\
    calls w' =
      [CallGet "prod" "alias";
       CallPatch "prod" "web" types.StrategicMergePatchType
         (list_byte_of_string "web:10.0.0.2")].
Proof.
  apply (fetched_and_changed_is_patched_under_its_own_name Demo.Marshal
           Demo.CreateTwoWayMergePatch Demo.scripted
           {| metav1.Name := "alias"; metav1.Namespace := "prod";
              metav1.ResourceVersion := ""; metav1.Labels := [] |}
           (Demo.inPlace (Demo.setSubsets ["10.0.0.2"]))
           (Demo.world []
              [(Some (Demo.web ["10.0.0.1"] "7"), None);
               (None, Some Demo.timeout)])
           (Demo.web ["10.0.0.1"] "7") [(None, Some Demo.timeout)]
           (list_byte_of_string "web:10.0.0.1")
           (list_byte_of_string "web:10.0.0.2")
           (list_byte_of_string "web:10.0.0.2")
           None (Some Demo.timeout) []); reflexivity.
Defined.

Lemma outcome_tells_the_requests_witness :
  (kutil.VerbPatched = kutil.VerbCreated /\
   [CallGet "prod" "web";
    CallPatch "prod" "web" types.StrategicMergePatchType
      (list_byte_of_string "web:10.0.0.2")]
   = [CallGet "prod" "web";
      CallCreate "prod"
        (Some (Demo.setSubsets ["10.0.0.2"] (v1.bare Demo.meta)))]) \/
  (kutil.VerbPatched = kutil.VerbPatched /\
   exists ns' name' patch,
     v1.emptyPatch patch = false /\
     [CallGet "prod" "web";
      CallPatch "prod" "web" types.StrategicMergePatchType
        (list_byte_of_string "web:10.0.0.2")]
     = [CallGet "prod" "web";
        CallPatch ns' name' types.StrategicMergePatchType patch]) \/
  (kutil.VerbPatched = kutil.VerbUnchanged /\
   [CallGet "prod" "web";
    CallPatch "prod" "web" types.StrategicMergePatchType
      (list_byte_of_string "web:10.0.0.2")]
   = [CallGet "prod" "web"]).
Proof.
  exact (outcome_tells_the_requests Demo.Marshal
           Demo.CreateTwoWayMergePatch Demo.scripted Demo.meta
           (Demo.inPlace (Demo.setSubsets ["10.0.0.2"]))
           (Demo.world []
              [(Some (Demo.web ["10.0.0.1"] "7"), None);
               (Some (Demo.web ["10.0.0.2"] "8"), None)])
           (Some 2) kutil.VerbPatched None
           {| heap := [Demo.web ["10.0.0.1"] "7";
                       Demo.web ["10.0.0.2"] "7";
                       Demo.web ["10.0.0.2"] "8"];
              server := [];
              calls := [CallGet "prod" "web";
                        CallPatch "prod" "web"
                          types.StrategicMergePatchType
                          (list_byte_of_string "web:10.0.0.2")] |}
           eq_refl).
Defined.

Lemma helper_returns_when_the_fetch_answers_witness :
  (exists r w',
     Demo.CreateOrPatchEndpoints Demo.meta
       (Demo.dropIt Demo.unname)
       (Demo.world [] [(Some (Demo.web ["10.0.0.1"] "7"), None)])
     = Returns r w') /\
  (exists r w',
     Demo.CreateOrPatchEndpoints Demo.meta
       (Demo.dropIt Demo.unname)
       (Demo.world [] [(None, Some Demo.timeout)])
     = Returns r w').
Proof.
  split.
  - apply (helper_returns_when_the_fetch_answers Demo.Marshal
             Demo.CreateTwoWayMergePatch Demo.scripted Demo.meta
             (Demo.dropIt Demo.unname)
             (Demo.world [] [(Some (Demo.web ["10.0.0.1"] "7"), None)])
             (Some (Demo.web ["10.0.0.1"] "7")) None []);
      [reflexivity | left; discriminate].
  - apply (helper_returns_when_the_fetch_answers Demo.Marshal
             Demo.CreateTwoWayMergePatch Demo.scripted Demo.meta
             (Demo.dropIt Demo.unname)
             (Demo.world [] [(None, Some Demo.timeout)])
             None (Some Demo.timeout) []);
      [reflexivity | right; discriminate].
Defined.

Lemma nil_current_with_a_patch_panics_witness :
  Demo.PatchEndpointsObject None (Some 0)
    (Demo.world [Demo.web ["10.0.0.1"] "7"]
       [(Some (Demo.web ["10.0.0.1"] "8"), None)])
  = Panics (Demo.world [Demo.web ["10.0.0.1"] "7"]
              [(Some (Demo.web ["10.0.0.1"] "8"), None)]) /\
  exists w',
    Demo.CreateOrPatchEndpoints Demo.meta
      {| onObject := fun e => (e, ReturnsArgument);
         onNil := Some (Demo.web ["10.0.0.1"] "") |}
      (Demo.world [] [(None, None);
                      (Some (Demo.web ["10.0.0.1"] "8"), None)])
    = Panics w' /\
    server w' = [(Some (Demo.web ["10.0.0.1"] "8"), None)] /\
    calls w' = [CallGet "prod" "web"].
Proof.
  destruct (nil_current_with_a_patch_panics Demo.Marshal
              Demo.CreateTwoWayMergePatch Demo.scripted) as [Hobj Hrun].
  split.
  - apply (Hobj (Some 0)
             (Demo.world [Demo.web ["10.0.0.1"] "7"]
                [(Some (Demo.web ["10.0.0.1"] "8"), None)])
             (Some (Demo.web ["10.0.0.1"] "7"))
             (list_byte_of_string "null")
             (list_byte_of_string "web:10.0.0.1")
             (list_byte_of_string "web:10.0.0.1")); reflexivity.
  - apply (Hrun Demo.meta
             {| onObject := fun e => (e, ReturnsArgument);
                onNil := Some (Demo.web ["10.0.0.1"] "") |}
             (Demo.world [] [(None, None);
                             (Some (Demo.web ["10.0.0.1"] "8"), None)])
             [(Some (Demo.web ["10.0.0.1"] "8"), None)]
             (list_byte_of_string "null")
             (list_byte_of_string "web:10.0.0.1")
             (list_byte_of_string "web:10.0.0.1")); reflexivity.
Defined.

Lemma unchanged_means_nothing_happened_witness :
  (kutil.VerbPatched = kutil.VerbUnchanged <->
   after (Demo.world [Demo.web ["10.0.0.1"] "7"; Demo.web [] "7"]
            [(Some (Demo.web [] "8"), None)])
     (CallPatch "prod" "web" types.StrategicMergePatchType
        (list_byte_of_string "web:"))
     [] (Some (Demo.web [] "8"))
   = Demo.world [Demo.web ["10.0.0.1"] "7"; Demo.web [] "7"]
       [(Some (Demo.web [] "8"), None)]) /\
  ((kutil.VerbUnchanged = kutil.VerbUnchanged ->
    (@None error = None /\ Some 0 = Some 0) \/
    (@None error <> None /\ Some 0 = @None loc))).
Proof.
  split.
  - exact (proj1 (proj2
             (unchanged_means_nothing_happened Demo.Marshal
                Demo.CreateTwoWayMergePatch Demo.scripted (Some 0) (Some 1)
                (Demo.world [Demo.web ["10.0.0.1"] "7"; Demo.web [] "7"]
                   [(Some (Demo.web [] "8"), None)])
                (Some 2) kutil.VerbPatched None _ eq_refl))).
  - exact (proj1 (proj2 (proj2
             (unchanged_means_nothing_happened Demo.Marshal
                Demo.CreateTwoWayMergePatch Demo.scripted (Some 0) (Some 1)
                (Demo.world
                   [Demo.web ["10.0.0.1"] "7"; Demo.web ["10.0.0.1"] "9"]
                   [])
                (Some 0) kutil.VerbUnchanged None _ eq_refl)))).
Defined.

Lemma only_the_handed_back_content_matters_witness :
  exists out1 out2 verb rerr w1 w2,
    Demo.PatchEndpoints (Some 0)
      (Demo.inPlace (Demo.setSubsets ["10.0.0.2"]))
      (Demo.world [Demo.web ["10.0.0.1"] "7"]
         [(Some (Demo.web ["10.0.0.2"] "8"), None)])
    = Returns (out1, verb, rerr) w1 /\
    Demo.PatchEndpoints (Some 0)
      {| onObject :=
           fun e => (Demo.unname e,
                     ReturnsNew (Demo.setSubsets ["10.0.0.2"] e));
         onNil := None |}
      (Demo.world [Demo.web ["10.0.0.1"] "7"]
         [(Some (Demo.web ["10.0.0.2"] "8"), None)])
    = Returns (out2, verb, rerr) w2 /\
    load w1 out1 = load w2 out2 /\
    server w1 = server w2 /\ calls w1 = calls w2.
Proof.
  apply (only_the_handed_back_content_matters Demo.Marshal
           Demo.CreateTwoWayMergePatch Demo.scripted
           (Demo.inPlace (Demo.setSubsets ["10.0.0.2"]))
           {| onObject :=
                fun e => (Demo.unname e,
                          ReturnsNew (Demo.setSubsets ["10.0.0.2"] e));
              onNil := None |}
           (Demo.world [Demo.web ["10.0.0.1"] "7"]
              [(Some (Demo.web ["10.0.0.2"] "8"), None)])
           0 (Demo.web ["10.0.0.1"] "7")); reflexivity.
Defined.
